(** * subtitles.py: the streaming transcriber [transcribe_audio]

    A shallow embedding of [transcribe_audio] (src/subtitles.py, lines 35-64)
    and of the Python, NumPy and Vosk operations it calls, followed by the
    properties of the transcription loop.

    Conventions of the embedding:
    - a Python [str] is the list of its Unicode code points;
    - a JSON number (Python [int] or [float]) is an exact rational of [Q];
      the rounding of binary floating point is not modelled;
    - the local [segment_start] is a Python [int], hence a [Z];
    - the Vosk recogniser is an external stateful object: its methods take
      the session and give back the session they leave behind;
    - [print] and [SetLogLevel] act on a [world] that is threaded through. *)

From Stdlib Require Import ZArith QArith List String Ascii Bool Lia Lqa.
From Stdlib.Strings Require Import Byte.
From Stdlib Require Import Sorted.
Import ListNotations.

Local Open Scope Z_scope.

(** ** Python built-ins *)

Module Py.

(** [str]: a sequence of code points. *)
Definition str := list N.

Definition of_string (s : string) : str :=
    map N_of_ascii (list_ascii_of_string s).

(** [ch.isspace()] as CPython decides it ([_PyUnicode_IsWhitespace]). *)
Definition isspace (c : N) : bool :=
    ((9 <=? c) && (c <=? 13) || (28 <=? c) && (c <=? 32)
     || (c =? 133) || (c =? 160) || (c =? 5760)
     || (8192 <=? c) && (c <=? 8202)
     || (c =? 8232) || (c =? 8233) || (c =? 8239) || (c =? 8287)
     || (c =? 12288))%N.

Fixpoint lstrip (s : str) : str :=
    match s with
    | [] => []
    | c :: s' => if isspace c then lstrip s' else s
    end.

Definition rstrip (s : str) : str := rev (lstrip (rev s)).

(** [s.strip()] with no argument. *)
Definition strip (s : str) : str := rstrip (lstrip s).

(** Truth value of a [str] in a condition: non-empty. *)
Definition truthy (s : str) : bool :=
    match s with [] => false | _ :: _ => true end.

(** [len(range(start, stop, step))] and [list(range(start, stop, step))]
      for a positive [step]. *)
Definition range_len (start stop step : Z) : nat :=
    Z.to_nat ((stop - start + step - 1) / step).

Definition range (start stop step : Z) : list Z :=
    map (fun k => start + Z.of_nat k * step) (seq 0 (range_len start stop step)).

(** An index of a slice, brought into [0, len]. *)
Definition clip (len i : Z) : Z :=
    if i <? 0 then Z.max 0 (i + len) else Z.min i len.

(** [a[lo:hi]]. *)
Definition slice {A : Type} (a : list A) (lo hi : Z) : list A :=
    let len := Z.of_nat (List.length a) in
    let lo' := clip len lo in
    let hi' := clip len hi in
    firstn (Z.to_nat (hi' - lo')) (skipn (Z.to_nat lo') a).

(** An exception in flight, by its message. *)
Definition exn := string.

End Py.

(** ** NumPy: an [int16] array and [ndarray.tobytes] *)

Module Np.

(** A one-dimensional [int16] array: its samples, each in [-32768, 32767]. *)
Definition int16_array := list Z.

Definition byte_of_Z (z : Z) : byte :=
    match Byte.of_N (Z.to_N (z mod 256)) with
    | Some b => b
    | None => x00
    end.

(** Two bytes per sample, least significant first, two's complement. *)
Definition sample_bytes (s : Z) : list byte :=
    [byte_of_Z s; byte_of_Z (s / 256)].

Definition tobytes (a : int16_array) : list byte :=
    flat_map sample_bytes a.

End Np.

(** ** Vosk: the recogniser as seen by [transcribe_audio] *)

Module Vosk.

(** One element of the list under the key ["result"]: the keys the loop
      reads ([conf] is never read). *)
Record word_info := {
    word : Py.str;
    start : Q;
    end_ : Q
  }.

(** [json.loads(recognizer.Result())]: the key ["text"], and the key
      ["result"], which is absent when no word was recognised. *)
Record final_result := {
    text : Py.str;
    result : option (list word_info)
  }.

(** The engine. [Model] and [KaldiRecognizer] raise when the model or the
      session cannot be created, [AcceptWaveform] raises when the waveform
      cannot be processed; [Result] stands for [Result] followed by
      [json.loads]. *)
Record Recognizer := {
    model : Type;
    session : Type;
    Model : string -> Py.exn + model;
    KaldiRecognizer : model -> Z -> Py.exn + session;
    SetWords : session -> bool -> session;
    SetPartialWords : session -> bool -> session;
    AcceptWaveform : session -> list byte -> session * (Py.exn + bool);
    Result : session -> session * final_result
  }.

End Vosk.

Import Vosk.

(** ** The transcriber *)

(** A subtitle: [(word_start, word_end, word)]. *)
Definition entry : Type := Q * Q * Py.str.

Definition entry_start (e : entry) : Q := fst (fst e).
Definition entry_end (e : entry) : Q := snd (fst e).
Definition entry_word (e : entry) : Py.str := snd e.

(** What [print] writes. *)
Inductive line :=
| Recognized (r : final_result)
| Subtitles (l : list entry).

(** The part of the process the function acts on besides the recogniser: the
    Kaldi log level and the standard output. *)
Record world := {
  log_level : Z;
  stdout : list line
}.

Definition SetLogLevel (level : Z) (w : world) : world :=
  {| log_level := level; stdout := stdout w |}.

Definition print (l : line) (w : world) : world :=
  {| log_level := log_level w; stdout := stdout w ++ [l] |}.

(** Line 37: the world once the log level is settled. *)
Definition quieten (debug : bool) (w : world) : world :=
  if negb debug then SetLogLevel (-1) w else w.

Definition chunk_size : Z := 8000.

Definition model_path_default : string := "vosk-model-small-en-us-0.15".
Definition debug_default : bool := false.

(** The windows [audio_data[i:i+chunk_size]] for [i] in
    [range(0, len(audio_data), chunk_size)], for any window size [w]. *)
Definition windows_of (w : Z) (audio_data : Np.int16_array)
  : list Np.int16_array :=
  map (fun i => Py.slice audio_data i (i + w))
      (Py.range 0 (Z.of_nat (List.length audio_data)) w).

Definition windows : Np.int16_array -> list Np.int16_array :=
  windows_of chunk_size.

(** The successive values of [chunk] (line 49). *)
Definition chunks (audio_data : Np.int16_array) : list (list byte) :=
  map Np.tobytes (windows audio_data).

(** Lines 57-59: one word appended to [subtitles]. *)
Definition append_word (segment_start : Z) (subtitles : list entry)
  (word_info : word_info) : list entry :=
  subtitles ++ [(inject_Z segment_start + start word_info,
                 inject_Z segment_start + end_ word_info,
                 word word_info)%Q].

(** The subtitle of one word when [segment_start] is [off]. *)
Definition entry_at (off : Z) (w : word_info) : entry :=
  (inject_Z off + start w, inject_Z off + end_ w, word w)%Q.

(** [result.get("result", [])]. *)
Definition get_result (r : final_result) : list word_info :=
  match result r with
  | Some l => l
  | None => []
  end.

(** How a statement ends: normally, or with an exception; either way with
    the state it leaves. *)
Inductive outcome (A : Type) :=
| Normal (a : A)
| Raised (e : Py.exn) (a : A).

Arguments Normal {A} a.
Arguments Raised {A} e a.

(** The state a statement leaves, however it ends. *)
Definition reached {A : Type} (o : outcome A) : A :=
  match o with
  | Normal a => a
  | Raised _ a => a
  end.

Section Transcriber.

Variable E : Recognizer.

(** The variables of [transcribe_audio] that the loop reads and writes,
      with the world. *)
Record frame := {
    env : world;
    recognizer : session E;
    subtitles : list entry;
    segment_start : Z
  }.

(** Lines 49-61: one turn of the loop, [chunk] already computed. *)
Definition body (debug : bool) (st : frame) (chunk : list byte)
    : outcome frame :=
    let (r1, accepted) := AcceptWaveform E (recognizer st) chunk in
    match accepted with
    | inl e =>
        Raised e {| env := env st; recognizer := r1;
                    subtitles := subtitles st;
                    segment_start := segment_start st |}
    | inr false =>
        Normal {| env := env st; recognizer := r1;
                  subtitles := subtitles st;
                  segment_start := segment_start st |}
    | inr true =>
        let (r2, res) := Result E r1 in
        let env' := if debug then print (Recognized res) (env st)
                    else env st in
        if Py.truthy (Py.strip (text res)) then
          Normal {| env := env'; recognizer := r2;
                    subtitles :=
                      fold_left (append_word (segment_start st))
                                (get_result res) (subtitles st);
                    segment_start := segment_start st + 3 |}
        else
          Normal {| env := env'; recognizer := r2;
                    subtitles := subtitles st;
                    segment_start := segment_start st |}
    end.

(** The [for] loop of line 48 over the chunks still to come. *)
Fixpoint loop (debug : bool) (st : frame) (cs : list (list byte))
    : outcome frame :=
    match cs with
    | [] => Normal st
    | c :: cs' =>
        match body debug st c with
        | Normal st' => loop debug st' cs'
        | Raised e st' => Raised e st'
        end
    end.

(** Lines 39-42: the session, created and configured. *)
Definition open_session (model_path : string) (sample_rate : Z)
    : Py.exn + session E :=
    match Model E model_path with
    | inl e => inl e
    | inr m =>
        match KaldiRecognizer E m sample_rate with
        | inl e => inl e
        | inr r => inr (SetPartialWords E (SetWords E r true) true)
        end
    end.

(** How a call of [transcribe_audio] ends. *)
Inductive run :=
  | SessionRaised (e : Py.exn) (w : world)
  | FeedRaised (e : Py.exn) (st : frame)
  | Returned (st : frame).

(** Lines 37-64, keeping the frame the call ends with. *)
Definition transcribe_run (audio_data : Np.int16_array) (sample_rate : Z)
    (model_path : string) (debug : bool) (w : world) : run :=
    let w1 := quieten debug w in
    match open_session model_path sample_rate with
    | inl e => SessionRaised e w1
    | inr r =>
        let st0 := {| env := w1; recognizer := r;
                      subtitles := []; segment_start := 0 |} in
        match loop debug st0 (chunks audio_data) with
        | Raised e st => FeedRaised e st
        | Normal st =>
            Returned
              {| env := if debug then print (Subtitles (subtitles st)) (env st)
                        else env st;
                 recognizer := recognizer st;
                 subtitles := subtitles st;
                 segment_start := segment_start st |}
        end
    end.

(** [transcribe_audio]: what the caller gets, the list returned or the
      exception that escapes. *)
Definition transcribe_audio (audio_data : Np.int16_array) (sample_rate : Z)
    (model_path : string) (debug : bool) (w : world)
    : Py.exn + list entry :=
    match transcribe_run audio_data sample_rate model_path debug w with
    | SessionRaised e _ => inl e
    | FeedRaised e _ => inl e
    | Returned st => inr (subtitles st)
    end.

End Transcriber.

Arguments SessionRaised {E} e w.
Arguments FeedRaised {E} e st.
Arguments Returned {E} st.
Arguments env {E} f.
Arguments recognizer {E} f.
Arguments subtitles {E} f.
Arguments segment_start {E} f.

(** ** What the engine answers *)

(** The answer of the engine to one chunk, as lines 50-51 obtain it. *)
Inductive response :=
| NotFinal
| Final (r : final_result)
| Raises (e : Py.exn).

Section Responses.

Variable E : Recognizer.

(** Lines 50-51 alone: [AcceptWaveform], then [Result] when it said yes. *)
Definition feed (s : session E) (chunk : list byte) : session E * response :=
  let (r1, accepted) := AcceptWaveform E s chunk in
  match accepted with
  | inl e => (r1, Raises e)
  | inr false => (r1, NotFinal)
  | inr true => let (r2, res) := Result E r1 in (r2, Final res)
  end.

(** The answers the loop gets from session [s] on the chunks [cs], up to
    and including the first exception. *)
Fixpoint responses (s : session E) (cs : list (list byte)) : list response :=
  match cs with
  | [] => []
  | c :: cs' =>
      let (s', a) := feed s c in
      a :: match a with
           | Raises _ => []
           | _ => responses s' cs'
           end
  end.

(** The answers a whole call gets; none when no session is created. *)
Definition engine_responses (audio_data : Np.int16_array) (sample_rate : Z)
  (model_path : string) : list response :=
  match open_session E model_path sample_rate with
  | inl _ => []
  | inr r => responses r (chunks audio_data)
  end.

(** The frame the loop has reached after its first [k] turns, from [st]. *)
Definition frame_after (debug : bool) (st : frame E) (cs : list (list byte))
  (k : nat) : frame E :=
  reached (loop E debug st (firstn k cs)).

(** The frame the loop starts from (lines 44-46). *)
Definition frame0 (w : world) (r : session E) : frame E :=
  {| env := w; recognizer := r; subtitles := []; segment_start := 0 |}.

(** What a frame holds besides the world. *)
Definition core (st : frame E) : session E * list entry * Z :=
  (recognizer st, subtitles st, segment_start st).

(** The frame a call ends with, when a session was created. *)
Definition last_frame (o : run E) : option (frame E) :=
  match o with
  | SessionRaised _ _ => None
  | FeedRaised _ st => Some st
  | Returned st => Some st
  end.

End Responses.

Arguments core {E} st.
Arguments last_frame {E} o.

(** A text with nothing but white space in it (the empty text included). *)
Definition blank (s : Py.str) : bool := forallb Py.isspace s.

(** A finalized result whose text is not blank. *)
Definition speech (a : response) : bool :=
  match a with
  | Final r => negb (blank (text r))
  | _ => false
  end.

Definition count_speech (rs : list response) : Z :=
  Z.of_nat (List.length (filter speech rs)).

(** ** Properties of the output *)

Definition starts_in_order (a b : entry) : Prop :=
  (entry_start a <= entry_start b)%Q.

(** Non-decreasing in [start]. *)
Definition sorted_by_start (l : list entry) : Prop :=
  Sorted starts_in_order l.

Definition valid_entry (e : entry) : Prop :=
  (0 <= entry_start e)%Q /\ (entry_start e <= entry_end e)%Q.

(** An entry that starts no later than [off]. *)
Definition not_after (off : Z) (e : entry) : Prop :=
  (entry_start e <= inject_Z off)%Q.

(** A word reported with [0 <= start <= end]. *)
Definition valid_word (w : word_info) : bool :=
  Qle_bool 0 (start w) && Qle_bool (start w) (end_ w).

Definition valid_response (a : response) : bool :=
  match a with
  | Final r => forallb valid_word (get_result r)
  | _ => true
  end.

(** The step by which [segment_start] advances (line 61). *)
Definition segment_step : Z := 3.

Fixpoint starts_ascend (prev : Q) (ws : list word_info) : bool :=
  match ws with
  | [] => true
  | w :: ws' => Qle_bool prev (start w) && starts_ascend (start w) ws'
  end.

(** Words in non-decreasing order of [start], every [start] within
    [0, segment_step]. *)
Definition words_fit_step (ws : list word_info) : bool :=
  starts_ascend 0 ws
  && forallb (fun w => Qle_bool (start w) (inject_Z segment_step)) ws.

Definition fitting_response (a : response) : bool :=
  match a with
  | Final r => blank (text r) || words_fit_step (get_result r)
  | _ => true
  end.

(** ** A scripted engine

    An engine that answers from a list, one answer per chunk whatever the
    chunk holds, and [NotFinal] once the list is used up. *)

Module Script.

Record session := {
  pending : final_result;
  script : list response
}.

Definition silence : final_result := {| text := []; result := None |}.

Definition AcceptWaveform (s : session) (chunk : list byte)
  : session * (Py.exn + bool) :=
  match script s with
  | [] => (s, inr false)
  | NotFinal :: rest => ({| pending := pending s; script := rest |}, inr false)
  | Final r :: rest => ({| pending := r; script := rest |}, inr true)
  | Raises e :: rest => ({| pending := pending s; script := rest |}, inl e)
  end.

Definition Result (s : session) : session * final_result :=
  ({| pending := silence; script := script s |}, pending s).

Definition engine (answers : list response) : Recognizer :=
  {| model := unit;
     Vosk.session := session;
     Model := fun _ => inr tt;
     KaldiRecognizer := fun _ _ => inr {| pending := silence; script := answers |};
     SetWords := fun s _ => s;
     SetPartialWords := fun s _ => s;
     Vosk.AcceptWaveform := AcceptWaveform;
     Vosk.Result := Result |}.

End Script.

(** ** Concrete data *)

Definition world0 : world := {| log_level := 0; stdout := [] |}.

(** A buffer of [n] samples of silence. *)
Definition zeros (n : Z) : Np.int16_array := repeat 0 (Z.to_nat n).

Definition hello_world : final_result :=
  {| text := Py.of_string "hello world";
     result := Some [ {| word := Py.of_string "hello"; start := 0; end_ := 0.4 |};
                      {| word := Py.of_string "world"; start := 0.5; end_ := 0.9 |} ] |}.

(** The scenario of three windows: not final, "hello world", silence. *)
Definition scenario : list response :=
  [NotFinal; Final hello_world; Final Script.silence].

(** An utterance of more than three seconds, then the next one, on six
    windows of one second each at 8000 Hz: the first is finalized on the fifth
    window, the second on the sixth. *)
Definition long_utterance : final_result :=
  {| text := Py.of_string "slow speech";
     result := Some [ {| word := Py.of_string "slow"; start := 0; end_ := 0.5 |};
                      {| word := Py.of_string "speech"; start := 3.5; end_ := 4 |} ] |}.

Definition next_utterance : final_result :=
  {| text := Py.of_string "next";
     result := Some [ {| word := Py.of_string "next"; start := 0.2; end_ := 0.6 |} ] |}.

Definition two_utterances : list response :=
  [NotFinal; NotFinal; NotFinal; NotFinal;
   Final long_utterance; Final next_utterance].

(** The session [Script.engine answers] creates. *)
Definition fresh (answers : list response) : Script.session :=
  {| Script.pending := Script.silence; Script.script := answers |}.

(** Three windows, the engine failing on the second. *)
Definition failing_second : list response :=
  [Final hello_world; Raises "Failed to process waveform"%string;
   Final hello_world].

(** The frame in which the loop starts on a session fresh from [answers],
    without [debug], in [world0]. *)
Definition start_frame (answers : list response)
  : frame (Script.engine answers) :=
  frame0 (Script.engine answers) (quieten false world0) (fresh answers).

(** ** The run, by the answers of the engine *)

(** The words an answer adds to the subtitles: those of a finalized result
    whose text is not blank. *)
Definition words_of (a : response) : list word_info :=
  match a with
  | Final r => if blank (text r) then [] else get_result r
  | _ => []
  end.

(** The entries the answers [rs] give when [segment_start] is [off] at the
    first of them. *)
Fixpoint placed (off : Z) (rs : list response) : list entry :=
  match rs with
  | [] => []
  | a :: rs' =>
      map (entry_at off) (words_of a)
      ++ placed (if speech a then off + 3 else off) rs'
  end.

(** The exception among the answers, if there is one. *)
Fixpoint first_raise (rs : list response) : option Py.exn :=
  match rs with
  | [] => None
  | Raises e :: _ => Some e
  | _ :: rs' => first_raise rs'
  end.

(** What line 52 prints along the answers [rs]. *)
Definition recognized_lines (rs : list response) : list line :=
  flat_map (fun a => match a with
                     | Final r => [Recognized r]
                     | _ => []
                     end) rs.

(** The world a call leaves. *)
Definition final_world {E : Recognizer} (o : run E) : world :=
  match o with
  | SessionRaised _ w => w
  | FeedRaised _ st => env st
  | Returned st => env st
  end.

(** An engine whose model cannot be loaded: [Model] raises, as Vosk does
    on a path that holds no model. *)
Definition no_model : Recognizer :=
  {| model := unit;
     Vosk.session := Script.session;
     Model := fun _ => inl "Failed to create a model"%string;
     KaldiRecognizer := fun _ _ => inr (fresh []);
     SetWords := fun s _ => s;
     SetPartialWords := fun s _ => s;
     Vosk.AcceptWaveform := Script.AcceptWaveform;
     Vosk.Result := Script.Result |}.

(** A finalized result with a text and no key ["result"]. *)
Definition no_words : final_result :=
  {| text := Py.of_string "hm"; result := None |}.

Definition wordless_then_hello : list response :=
  [Final no_words; Final hello_world].

(** ** NumPy: [np.frombuffer(buffer, dtype=np.int16)] *)

Module NpBuffer.

Definition Z_of_byte (b : byte) : Z := Z.of_N (Byte.to_N b).

(** The sample two bytes hold, least significant first, two's complement. *)
Definition int16_of_bytes (lo hi : byte) : Z :=
  let u := Z_of_byte lo + 256 * Z_of_byte hi in
  if u <? 32768 then u else u - 65536.

(** The samples of a buffer; none when a byte is left over. *)
Fixpoint samples (buffer : list byte) : option Np.int16_array :=
  match buffer with
  | [] => Some []
  | [_] => None
  | lo :: hi :: rest =>
      match samples rest with
      | Some a => Some (int16_of_bytes lo hi :: a)
      | None => None
      end
  end.

(** [np.frombuffer]: a [ValueError] when the size of the buffer is not a
    multiple of the two bytes of a sample. *)
Definition frombuffer (buffer : list byte) : Py.exn + Np.int16_array :=
  match samples buffer with
  | Some a => inr a
  | None => inl "buffer size must be a multiple of element size"%string
  end.

(** A value an [int16] holds. *)
Definition int16 (s : Z) : Prop := -32768 <= s <= 32767.

End NpBuffer.

(** ** JSON values, as [json.loads] builds them *)

#[local] Set Warnings "-register-all".

Inductive json :=
| JNull
| JBool (b : bool)
| JInt (z : Z)
| JFloat (q : Q)
| JStr (s : Py.str)
| JList (l : list json)
| JDict (items : list (Py.str * json)).

(** The Python type of a value. *)
Inductive json_type :=
| NoneType | bool_t | int_t | float_t | str_t | list_t | dict_t.

Definition type_of (v : json) : json_type :=
  match v with
  | JNull => NoneType
  | JBool _ => bool_t
  | JInt _ => int_t
  | JFloat _ => float_t
  | JStr _ => str_t
  | JList _ => list_t
  | JDict _ => dict_t
  end.

(** The exceptions of [extract_audio_from_video]: those the interpreter
    raises on a value of the wrong type or a missing key, [ValueError] with
    its message, [json.JSONDecodeError], and any other class by its name. *)
Inductive exception :=
| ValueError (msg : string)
| JSONDecodeError (msg : string)
| KeyError (key : Py.str)
| AttributeError (t : json_type) (attribute : string)
| TypeError (t : json_type)
| OtherError (class msg : string).

Fixpoint str_eqb (a b : Py.str) : bool :=
  match a, b with
  | [], [] => true
  | x :: a', y :: b' => (x =? y)%N && str_eqb a' b'
  | _, _ => false
  end.

(** The value under [key] in the items of a dict, each key being there
    once. *)
Fixpoint dict_get (key : Py.str) (items : list (Py.str * json))
  : option json :=
  match items with
  | [] => None
  | (k, v) :: rest => if str_eqb k key then Some v else dict_get key rest
  end.

(** [v.get(key, default)]. *)
Definition get_or (v : json) (key : Py.str) (default : json)
  : exception + json :=
  match v with
  | JDict items =>
      inr (match dict_get key items with
           | Some x => x
           | None => default
           end)
  | _ => inl (AttributeError (type_of v) "get")
  end.

(** [v[key]] for a [str] key, on a dict. *)
Definition subscript (v : json) (key : Py.str) : exception + json :=
  match v with
  | JDict items =>
      match dict_get key items with
      | Some x => inr x
      | None => inl (KeyError key)
      end
  | _ => inl (TypeError (type_of v))
  end.

(** What [for stream in v] goes through. *)
Definition iterate (v : json) : exception + list json :=
  match v with
  | JList l => inr l
  | JDict items => inr (map (fun kv => JStr (fst kv)) items)
  | JStr s => inr (map (fun c => JStr [c]) s)
  | _ => inl (TypeError (type_of v))
  end.

(** [v == s] for a [str] [s]. *)
Definition equals_str (v : json) (s : Py.str) : bool :=
  match v with
  | JStr t => str_eqb t s
  | _ => false
  end.

(** The truth value of [v] in a condition. *)
Definition truth (v : json) : bool :=
  match v with
  | JNull => false
  | JBool b => b
  | JInt z => negb (z =? 0)
  | JFloat q => negb (Qeq_bool q 0)
  | JStr s => Py.truthy s
  | JList l => match l with [] => false | _ :: _ => true end
  | JDict items => match items with [] => false | _ :: _ => true end
  end.

(** ** [extract_audio_from_video] *)

(** What the function calls outside the repository: [ffprobe] through
    [subprocess.run] (its standard output), [json.loads], the built-in
    [int], and the ffmpeg pipeline of lines 23-28 (its standard output and
    standard error). *)
Record Tools := {
  ffprobe : string -> exception + string;
  json_loads : string -> exception + json;
  int : json -> exception + Z;
  ffmpeg_run : string -> Z -> exception + (list byte * list byte)
}.

Definition bind {A B : Type} (a : exception + A) (f : A -> exception + B)
  : exception + B :=
  match a with
  | inl e => inl e
  | inr x => f x
  end.

Notation "x <- a ;; b" := (bind a (fun x => b))
  (at level 61, a at next level, right associativity).

Definition not_json : string :=
  "FFprobe output is not valid JSON. Check FFmpeg installation.".
Definition no_audio : string := "No audio stream found in the video.".

(** [next((stream for stream in streams if
    stream.get("codec_type") == "audio"), None)]: the streams are looked at
    one by one, up to the first audio stream. *)
Fixpoint next_audio (streams : list json) : exception + option json :=
  match streams with
  | [] => inr None
  | stream :: rest =>
      match get_or stream (Py.of_string "codec_type") JNull with
      | inl e => inl e
      | inr v =>
          if equals_str v (Py.of_string "audio") then inr (Some stream)
          else next_audio rest
      end
  end.

Section Extract.

Variable T : Tools.

(** Lines 7-14. *)
Definition probe_video (video_path : string) : exception + json :=
  match out <- ffprobe T video_path ;; json_loads T out with
  | inl (JSONDecodeError _) => inl (ValueError not_json)
  | inl e => inl e
  | inr probe => inr probe
  end.

(** Lines 17-19. *)
Definition find_audio_stream (probe : json) : exception + json :=
  streams <- get_or probe (Py.of_string "streams") (JList []) ;;
  l <- iterate streams ;;
  found <- next_audio l ;;
  match found with
  | None => inl (ValueError no_audio)
  | Some audio_stream =>
      if negb (truth audio_stream) then inl (ValueError no_audio)
      else inr audio_stream
  end.

(** Lines 21-32. *)
Definition read_audio (video_path : string) (audio_stream : json)
  : exception + (Np.int16_array * Z) :=
  v <- subscript audio_stream (Py.of_string "sample_rate") ;;
  sample_rate <- int T v ;;
  process <- ffmpeg_run T video_path sample_rate ;;
  match NpBuffer.frombuffer (fst process) with
  | inl msg => inl (ValueError msg)
  | inr audio_data => inr (audio_data, sample_rate)
  end.

Definition extract_audio_from_video (video_path : string)
  : exception + (Np.int16_array * Z) :=
  probe <- probe_video video_path ;;
  audio_stream <- find_audio_stream probe ;;
  read_audio video_path audio_stream.

End Extract.

(** A stream that is a dict and not an audio stream. *)
Definition other_stream (stream : json) : bool :=
  match stream with
  | JDict items =>
      match dict_get (Py.of_string "codec_type") items with
      | Some v => negb (equals_str v (Py.of_string "audio"))
      | None => true
      end
  | _ => false
  end.

(** A dict with ["codec_type": "audio"]. *)
Definition audio_items (items : list (Py.str * json)) : bool :=
  match dict_get (Py.of_string "codec_type") items with
  | Some v => equals_str v (Py.of_string "audio")
  | None => false
  end.

(** ** Tools for concrete runs *)

(** A stand-in for the built-in [int] in concrete runs. It agrees with
    [int] on an [int] and on a [str] of ASCII decimal digits, the form in
    which ffprobe writes a sample rate; elsewhere it is not [int] (signs,
    white space, underscores, floats and bools are not handled, and the
    message leaves out the literal). The theorems take [int] as a field of
    [Tools] and do not depend on it. *)
Fixpoint digits (s : Py.str) (acc : Z) : option Z :=
  match s with
  | [] => Some acc
  | c :: s' =>
      if ((48 <=? c) && (c <=? 57))%N
      then digits s' (10 * acc + Z.of_N (c - 48))
      else None
  end.

Definition int_of_digits (v : json) : exception + Z :=
  match v with
  | JInt z => inr z
  | JStr (c :: s) =>
      match digits (c :: s) 0 with
      | Some z => inr z
      | None => inl (ValueError "invalid literal for int() with base 10")
      end
  | JStr [] => inl (ValueError "invalid literal for int() with base 10")
  | _ => inl (TypeError (type_of v))
  end.

(** Tools that give a fixed probe and fixed bytes. *)
Definition canned (probe : exception + json)
  (pcm : exception + list byte) : Tools :=
  {| ffprobe := fun _ => inr "{...}"%string;
     json_loads := fun _ => probe;
     int := int_of_digits;
     ffmpeg_run := fun _ _ =>
       match pcm with
       | inl e => inl e
       | inr out => inr (out, [])
       end |}.

Definition video_stream : json :=
  JDict [(Py.of_string "codec_type", JStr (Py.of_string "video"));
         (Py.of_string "codec_name", JStr (Py.of_string "h264"))].

Definition audio_stream_44100 : list (Py.str * json) :=
  [(Py.of_string "codec_type", JStr (Py.of_string "audio"));
   (Py.of_string "sample_rate", JStr (Py.of_string "44100"))].

Definition audio_stream_8000 : list (Py.str * json) :=
  [(Py.of_string "codec_type", JStr (Py.of_string "audio"));
   (Py.of_string "sample_rate", JStr (Py.of_string "8000"))].

(** An audio stream without its ["sample_rate"]. *)
Definition audio_stream_bare : list (Py.str * json) :=
  [(Py.of_string "codec_type", JStr (Py.of_string "audio"))].

Definition probe_of (streams : list json) : json :=
  JDict [(Py.of_string "streams", JList streams)].

Definition four_bytes : list byte := [x01; x00; xff; xff].

(** Tools on a machine without ffprobe. *)
Definition no_ffprobe : Tools :=
  {| ffprobe := fun _ =>
       inl (OtherError "FileNotFoundError"
                       "[Errno 2] No such file or directory: 'ffprobe'");
     json_loads := fun _ => inl (JSONDecodeError "Expecting value");
     int := int_of_digits;
     ffmpeg_run := fun _ _ => inr ([], []) |}.

(** A video stream, two audio streams, and a value that is no stream. *)
Definition mixed_streams : list json :=
  [video_stream; JDict audio_stream_44100; JDict audio_stream_8000; JNull].

(** * Lemmas *)

(** ** Python strings *)

Lemma lstrip_nil (s : Py.str) : Py.lstrip s = [] <-> blank s = true.
Proof.
  induction s as [|c s IH]; simpl.
  - tauto.
  - destruct (Py.isspace c); simpl.
    + exact IH.
    + split; discriminate.
Qed.

Lemma blank_lstrip (s : Py.str) : blank (Py.lstrip s) = blank s.
Proof.
  induction s as [|c s IH]; simpl; [reflexivity|].
  destruct (Py.isspace c) eqn:Hc; simpl.
  - exact IH.
  - now rewrite Hc.
Qed.

Lemma blank_rev (s : Py.str) : blank (rev s) = blank s.
Proof.
  unfold blank. induction s as [|c s IH]; simpl; [reflexivity|].
  rewrite forallb_app, IH. simpl. rewrite andb_true_r. apply andb_comm.
Qed.

(** The test of line 53 holds exactly of the texts that are not blank. *)
Lemma truthy_strip (s : Py.str) : Py.truthy (Py.strip s) = negb (blank s).
Proof.
  unfold Py.strip, Py.rstrip.
  destruct (blank s) eqn:Hb; simpl.
  - apply lstrip_nil in Hb. rewrite Hb. reflexivity.
  - destruct (Py.lstrip (rev (Py.lstrip s))) as [|c t] eqn:Hl.
    + apply lstrip_nil in Hl.
      rewrite blank_rev, blank_lstrip in Hl. congruence.
    + destruct (rev (c :: t)) eqn:Hr; [|reflexivity].
      apply (f_equal (@List.length _)) in Hr.
      rewrite length_rev in Hr. discriminate.
Qed.

(** ** Slices and ranges *)

Lemma slice_firstn_skipn {A : Type} (a : list A) (lo hi : Z) :
  0 <= lo <= hi ->
  Py.slice a lo hi = firstn (Z.to_nat (hi - lo)) (skipn (Z.to_nat lo) a).
Proof.
  intros H. unfold Py.slice, Py.clip.
  destruct (Z.ltb_spec lo 0); [lia|].
  destruct (Z.ltb_spec hi 0); [lia|].
  set (len := Z.of_nat (List.length a)).
  destruct (Z.le_gt_cases hi len) as [Hh|Hh].
  - rewrite !Z.min_l by lia. reflexivity.
  - rewrite (Z.min_r hi) by lia.
    destruct (Z.le_gt_cases lo len) as [Hl|Hl].
    + rewrite Z.min_l by lia.
      rewrite !firstn_all2; [reflexivity| |];
        rewrite length_skipn; subst len; lia.
    + rewrite Z.min_r by lia.
      rewrite !skipn_all2 by (subst len; lia).
      now rewrite !firstn_nil.
Qed.

Lemma range_len_bounds (len w : Z) :
  0 < w -> 0 <= len ->
  let n := Z.of_nat (Py.range_len 0 len w) in
  len <= n * w /\ (n - 1) * w < len + Z.b2z (len =? 0) * w.
Proof.
  intros Hw Hl. unfold Py.range_len. cbv zeta.
  rewrite Z.sub_0_r.
  assert (Hq : 0 <= (len + w - 1) / w) by (apply Z.div_pos; lia).
  rewrite Z2Nat.id by exact Hq.
  pose proof (Z.div_mod (len + w - 1) w ltac:(lia)) as Hdm.
  pose proof (Z.mod_pos_bound (len + w - 1) w Hw) as Hm.
  destruct (Z.eqb_spec len 0); simpl Z.b2z; nia.
Qed.

(** Window [k] is the [w] samples from sample [k * w] on, or what is left of
    them. *)
Lemma windows_of_seq (w : Z) (a : Np.int16_array) :
  0 < w ->
  windows_of w a =
  map (fun k => firstn (Z.to_nat w) (skipn (k * Z.to_nat w) a))
      (seq 0 (Py.range_len 0 (Z.of_nat (List.length a)) w)).
Proof.
  intros Hw. unfold windows_of, Py.range. rewrite map_map.
  apply map_ext. intros k.
  rewrite slice_firstn_skipn by lia.
  f_equal; [f_equal; lia|]. f_equal. lia.
Qed.

Lemma concat_firstn_skipn {A : Type} (w : nat) (a : list A) (n : nat) :
  List.concat (map (fun k => firstn w (skipn (k * w) a)) (seq 0 n))
  = firstn (n * w) a.
Proof.
  induction n as [|n IH]; [reflexivity|].
  rewrite seq_S, map_app, concat_app, IH. simpl.
  rewrite app_nil_r.
  rewrite <- (firstn_skipn (n * w) (firstn (w + n * w) a)) at 1.
  rewrite firstn_firstn, Nat.min_l by lia.
  f_equal.
  rewrite skipn_firstn_comm. f_equal. lia.
Qed.

Lemma windows_of_nth (w : Z) (a : Np.int16_array) (k : nat)
  (win : Np.int16_array) :
  0 < w ->
  nth_error (windows_of w a) k = Some win ->
  (k < List.length (windows_of w a))%nat
  /\ win = firstn (Z.to_nat w) (skipn (k * Z.to_nat w) a).
Proof.
  intros Hw Hk. split.
  - apply nth_error_Some. congruence.
  - rewrite windows_of_seq, nth_error_map, nth_error_seq in Hk by exact Hw.
    destruct (k <? _)%nat; simpl in Hk; congruence.
Qed.

Lemma windows_of_length (w : Z) (a : Np.int16_array) :
  0 < w ->
  List.length (windows_of w a) = Py.range_len 0 (Z.of_nat (List.length a)) w.
Proof.
  intros Hw. now rewrite windows_of_seq, length_map, length_seq.
Qed.

Lemma windows_of_concat (w : Z) (a : Np.int16_array) :
  0 < w -> List.concat (windows_of w a) = a.
Proof.
  intros Hw. rewrite windows_of_seq by exact Hw.
  rewrite concat_firstn_skipn. apply firstn_all2.
  pose proof (range_len_bounds (Z.of_nat (List.length a)) w Hw ltac:(lia)) as [H _].
  nia.
Qed.

Lemma windows_of_sizes (w : Z) (a : Np.int16_array) (k : nat)
  (win : Np.int16_array) :
  0 < w ->
  nth_error (windows_of w a) k = Some win ->
  0 < Z.of_nat (List.length win) <= w
  /\ ((S k < List.length (windows_of w a))%nat -> Z.of_nat (List.length win) = w).
Proof.
  intros Hw Hk.
  destruct (windows_of_nth w a k win Hw Hk) as [Hlt ->].
  rewrite windows_of_length in * by exact Hw.
  pose proof (range_len_bounds (Z.of_nat (List.length a)) w Hw ltac:(lia)) as [_ H].
  cbv zeta in H.
  rewrite length_firstn, length_skipn.
  destruct (Z.eqb_spec (Z.of_nat (List.length a)) 0) as [H0|H0]; simpl Z.b2z in H.
  - unfold Py.range_len in Hlt. rewrite H0 in Hlt.
    rewrite Z.sub_0_r, Z.add_0_l, Z.div_small in Hlt by lia. simpl in Hlt. lia.
  - split; [|intros HS]; nia.
Qed.

(** ** The windows of a buffer *)

(** C7. The windows of [transcribe_audio] partition the buffer: put end to
    end they give the buffer back; window [k] is the slice from sample
    [8000 * k] to sample [8000 * k + 8000]; there are as many as the length
    divided by 8000, rounded up; none is empty or longer than 8000 samples,
    and all but the last hold exactly 8000; computing the windows again, of
    an equal buffer or of the windows put end to end, gives the same
    windows. *)
Theorem windows_partition (audio_data : Np.int16_array) :
  List.concat (windows audio_data) = audio_data
  /\ Z.of_nat (List.length (windows audio_data))
     = (Z.of_nat (List.length audio_data) + 7999) / 8000
  /\ (forall (k : nat) (win : Np.int16_array),
        nth_error (windows audio_data) k = Some win ->
        win = Py.slice audio_data (8000 * Z.of_nat k) (8000 * Z.of_nat k + 8000)
        /\ 0 < Z.of_nat (List.length win) <= 8000
        /\ ((S k < List.length (windows audio_data))%nat ->
            Z.of_nat (List.length win) = 8000))
  /\ (forall other : Np.int16_array,
        other = audio_data -> windows other = windows audio_data)
  /\ windows (List.concat (windows audio_data)) = windows audio_data.
Proof.
  assert (Hw : 0 < chunk_size) by reflexivity.
  unfold windows. repeat split.
  - apply windows_of_concat, Hw.
  - rewrite windows_of_length by exact Hw. unfold Py.range_len, chunk_size.
    rewrite Z2Nat.id by (apply Z.div_pos; lia). f_equal. lia.
  - destruct (windows_of_nth _ _ _ _ Hw H) as [_ ->].
    rewrite slice_firstn_skipn by lia. unfold chunk_size.
    f_equal; [f_equal; lia|]. f_equal. lia.
  - apply (windows_of_sizes _ _ _ _ Hw H).
  - apply (windows_of_sizes _ _ _ _ Hw H).
  - apply (windows_of_sizes _ _ _ _ Hw H).
  - intros other ->. reflexivity.
  - now rewrite windows_of_concat.
Qed.

(** ** One turn of the loop *)

Lemma fold_append_word (off : Z) (ws : list word_info) (subs : list entry) :
  fold_left (append_word off) ws subs = subs ++ map (entry_at off) ws.
Proof.
  revert subs. induction ws as [|w ws IH]; intros subs; simpl.
  - now rewrite app_nil_r.
  - rewrite IH. unfold append_word, entry_at. now rewrite <- app_assoc.
Qed.

Section Turn.

Variable E : Recognizer.
Variable debug : bool.

(** The turn of the loop, by the answer of the engine. *)
Lemma body_feed (st : frame E) (c : list byte) :
  body E debug st c =
  match feed E (recognizer st) c with
  | (s', Raises e) =>
      Raised e {| env := env st; recognizer := s';
                  subtitles := subtitles st;
                  segment_start := segment_start st |}
  | (s', NotFinal) =>
      Normal {| env := env st; recognizer := s';
                subtitles := subtitles st;
                segment_start := segment_start st |}
  | (s', Final r) =>
      Normal {| env := if debug then print (Recognized r) (env st) else env st;
                recognizer := s';
                subtitles :=
                  subtitles st ++
                  (if speech (Final r)
                   then map (entry_at (segment_start st)) (get_result r)
                   else []);
                segment_start :=
                  segment_start st + (if speech (Final r) then 3 else 0) |}
  end.
Proof.
  unfold body, feed.
  destruct (AcceptWaveform E (recognizer st) c) as [r1 [e|[|]]];
    try reflexivity.
  destruct (Result E r1) as [r2 res]. simpl speech.
  rewrite truthy_strip. destruct (blank (text res)); simpl negb; cbv iota.
  - now rewrite app_nil_r, Z.add_0_r.
  - now rewrite fold_append_word.
Qed.

Lemma loop_app (st : frame E) (cs1 cs2 : list (list byte)) :
  loop E debug st (cs1 ++ cs2) =
  match loop E debug st cs1 with
  | Normal st' => loop E debug st' cs2
  | Raised e st' => Raised e st'
  end.
Proof.
  revert st. induction cs1 as [|c cs1 IH]; intros st; simpl; [reflexivity|].
  destruct (body E debug st c); [apply IH|reflexivity].
Qed.

Lemma firstn_snoc {A : Type} (l : list A) (k : nat) (x : A) :
  nth_error l k = Some x -> firstn (S k) l = firstn k l ++ [x].
Proof.
  revert k. induction l as [|y l IH]; intros [|k] H; simpl in *;
    try discriminate.
  - congruence.
  - f_equal. now apply IH.
Qed.

(** The answers to the first [k] chunks are the first [k] answers. *)
Lemma responses_firstn (s : session E) (cs : list (list byte)) (k : nat) :
  responses E s (firstn k cs) = firstn k (responses E s cs).
Proof.
  revert s cs. induction k as [|k IH]; intros s [|c cs]; simpl; try reflexivity.
  destruct (feed E s c) as [s' a]. f_equal.
  destruct a; try apply IH. now rewrite firstn_nil.
Qed.

(** [segment_start] after the loop: three for each answer with speech. *)
Lemma loop_segment_start (cs : list (list byte)) (st : frame E) :
  segment_start (reached (loop E debug st cs))
  = segment_start st + 3 * count_speech (responses E (recognizer st) cs).
Proof.
  revert st. induction cs as [|c cs IH]; intros st; cbn [loop responses].
  - unfold count_speech. cbn [reached filter List.length]. lia.
  - rewrite body_feed. destruct (feed E (recognizer st) c) as [s' [|r|e]].
    + rewrite IH. reflexivity.
    + rewrite IH. unfold count_speech. cbn [recognizer segment_start filter].
      destruct (speech (Final r)); cbn [List.length]; lia.
    + unfold count_speech. cbn [reached segment_start filter speech List.length].
      lia.
Qed.

(** An exception on chunk [k] ends the answers at answer [k]. *)
Lemma responses_until_raise (k : nat) (cs : list (list byte))
  (st0 st : frame E) (c : list byte) (s' : session E) (e : Py.exn) :
  loop E debug st0 (firstn k cs) = Normal st ->
  nth_error cs k = Some c ->
  AcceptWaveform E (recognizer st) c = (s', inl e) ->
  List.length (responses E (recognizer st0) cs) = S k.
Proof.
  revert cs st0. induction k as [|k IH]; intros [|c0 cs] st0 Hk Hc Ha;
    try discriminate.
  - cbn in Hk, Hc. injection Hk as ->. injection Hc as ->.
    cbn [responses]. unfold feed. rewrite Ha. reflexivity.
  - cbn [firstn loop] in Hk. cbn [nth_error] in Hc. cbn [responses].
    rewrite body_feed in Hk.
    destruct (feed E (recognizer st0) c0) as [s1 [|r1|e1]]; try discriminate;
      cbn [List.length]; f_equal.
    + apply (IH _ _ Hk Hc Ha).
    + apply (IH _ _ Hk Hc Ha).
Qed.

Lemma count_speech_firstn_le (rs : list response) (j k : nat) :
  (j <= k)%nat -> count_speech (firstn j rs) <= count_speech (firstn k rs).
Proof.
  revert j k. unfold count_speech.
  induction rs as [|a rs IH]; intros j k Hjk.
  - rewrite !firstn_nil. lia.
  - destruct j as [|j]; [simpl; lia|]. destruct k as [|k]; [lia|].
    specialize (IH j k ltac:(lia)). simpl.
    destruct (speech a); simpl List.length; lia.
Qed.

Lemma count_speech_snoc (rs : list response) (a : response) :
  count_speech (rs ++ [a]) = count_speech rs + (if speech a then 1 else 0).
Proof.
  unfold count_speech. rewrite filter_app, length_app. simpl.
  destruct (speech a); simpl; lia.
Qed.

End Turn.

(** ** The run as a whole *)

Lemma chunks_nil : chunks [] = [].
Proof. reflexivity. Qed.

Lemma transcribe_run_loop (E : Recognizer) (audio_data : Np.int16_array)
  (sample_rate : Z) (model_path : string) (debug : bool) (w : world)
  (r : session E) :
  open_session E model_path sample_rate = inr r ->
  last_frame (transcribe_run E audio_data sample_rate model_path debug w)
  = Some (let st := reached (loop E debug (frame0 E (quieten debug w) r)
                                  (chunks audio_data)) in
          match loop E debug (frame0 E (quieten debug w) r) (chunks audio_data)
          with
          | Normal _ =>
              {| env := if debug then print (Subtitles (subtitles st)) (env st)
                        else env st;
                 recognizer := recognizer st;
                 subtitles := subtitles st;
                 segment_start := segment_start st |}
          | Raised _ _ => st
          end).
Proof.
  intros Hr. unfold transcribe_run. rewrite Hr. fold (frame0 E (quieten debug w) r).
  destruct (loop E debug _ _); reflexivity.
Qed.

(** C3. Over a run, [segment_start] is 0 before the first window; after [k]
    windows it is 3 times the number of finalized results with a text that
    is not blank among the first [k] answers, whatever words they carry; so
    it never decreases, each answer moves it by 3 or not at all, and the
    call ends with 3 times the number of such results. *)
Theorem segment_start_steps (E : Recognizer) (audio_data : Np.int16_array)
  (sample_rate : Z) (model_path : string) (debug : bool) (w : world)
  (r : session E) :
  open_session E model_path sample_rate = inr r ->
  let rs := engine_responses E audio_data sample_rate model_path in
  let off := fun k =>
    segment_start (frame_after E debug (frame0 E (quieten debug w) r)
                               (chunks audio_data) k) in
  off 0%nat = 0
  /\ (forall k, off k = 3 * count_speech (firstn k rs))
  /\ (forall j k, (j <= k)%nat -> off j <= off k)
  /\ (forall k a, nth_error rs k = Some a ->
        off (S k) = off k + (if speech a then 3 else 0))
  /\ (forall st,
        last_frame (transcribe_run E audio_data sample_rate model_path debug w)
        = Some st ->
        segment_start st = 3 * count_speech rs).
Proof.
  intros Hr rs off.
  assert (Hoff : forall k, off k = 3 * count_speech (firstn k rs)).
  { intros k. unfold off, frame_after, rs, engine_responses.
    rewrite Hr, loop_segment_start, responses_firstn. reflexivity. }
  split; [reflexivity|]. split; [exact Hoff|]. split; [|split].
  - intros j k Hjk. rewrite !Hoff.
    pose proof (count_speech_firstn_le rs j k Hjk). lia.
  - intros k a Ha. rewrite !Hoff, (firstn_snoc _ _ _ Ha), count_speech_snoc.
    destruct (speech a); lia.
  - intros st Hst. rewrite (transcribe_run_loop _ _ _ _ _ _ _ Hr) in Hst.
    injection Hst as <-. unfold rs, engine_responses. rewrite Hr.
    rewrite <- (Z.add_0_l (3 * _)).
    change 0 with (segment_start (frame0 E (quieten debug w) r)) at 1.
    change r with (recognizer (frame0 E (quieten debug w) r)) at 3.
    rewrite <- (loop_segment_start E debug).
    destruct (loop E debug _ _); reflexivity.
Qed.

(** C4. When the first [k] turns have gone well and the engine answers
    window [k] with a finalized result whose text is empty or all white
    space, the turn ends normally with the same subtitles and the same
    [segment_start]. *)
Theorem silence_turn (E : Recognizer) (debug : bool) (st0 st : frame E)
  (cs : list (list byte)) (k : nat) (c : list byte) (s' : session E)
  (r : final_result) :
  loop E debug st0 (firstn k cs) = Normal st ->
  nth_error cs k = Some c ->
  feed E (recognizer st) c = (s', Final r) ->
  blank (text r) = true ->
  exists st',
    loop E debug st0 (firstn (S k) cs) = Normal st'
    /\ subtitles st' = subtitles st
    /\ segment_start st' = segment_start st.
Proof.
  intros Hk Hc Hf Hb.
  rewrite (firstn_snoc _ _ _ Hc), loop_app, Hk. cbn [loop].
  rewrite body_feed, Hf. cbn [speech]. rewrite Hb. cbn [negb].
  eexists. split; [reflexivity|]. cbn [subtitles segment_start].
  split; [apply app_nil_r|lia].
Qed.

(** C5. When the first [k] turns have gone well and [AcceptWaveform] says of
    window [k] that no result is final yet, the turn ends normally, not with
    an exception, and changes nothing but the session of the engine: the
    subtitles, [segment_start] and the output are as they were. *)
Theorem not_final_turn (E : Recognizer) (debug : bool) (st0 st : frame E)
  (cs : list (list byte)) (k : nat) (c : list byte) (s' : session E) :
  loop E debug st0 (firstn k cs) = Normal st ->
  nth_error cs k = Some c ->
  AcceptWaveform E (recognizer st) c = (s', inr false) ->
  loop E debug st0 (firstn (S k) cs)
  = Normal {| env := env st; recognizer := s';
              subtitles := subtitles st;
              segment_start := segment_start st |}.
Proof.
  intros Hk Hc Ha.
  rewrite (firstn_snoc _ _ _ Hc), loop_app, Hk. cbn [loop].
  unfold body. rewrite Ha. reflexivity.
Qed.

(** C6, as amended. On an empty buffer the loop makes no turn: from any
    session it ends normally with no subtitle, [segment_start] 0 and the
    session untouched; and whenever the session is created,
    [transcribe_audio] returns the empty list and raises nothing, without one
    call to the engine. *)
Theorem empty_audio (E : Recognizer) (sample_rate : Z) (model_path : string)
  (debug : bool) (w : world) :
  (forall r : session E,
     loop E debug (frame0 E (quieten debug w) r) (chunks [])
     = Normal (frame0 E (quieten debug w) r))
  /\ (forall r : session E,
        open_session E model_path sample_rate = inr r ->
        transcribe_audio E [] sample_rate model_path debug w = inr []
        /\ engine_responses E [] sample_rate model_path = []
        /\ exists st,
             transcribe_run E [] sample_rate model_path debug w = Returned st
             /\ core st = (r, [], 0)).
Proof.
  split; [reflexivity|].
  intros r Hr.
  unfold transcribe_audio, engine_responses, transcribe_run.
  rewrite Hr, chunks_nil. cbn [loop responses subtitles].
  repeat split. eexists. split; reflexivity.
Qed.

(** C8. When the first [k] turns have gone well and [AcceptWaveform] raises
    on window [k], [transcribe_audio] ends with that exception and returns
    no list; the run ends right there, the session being the one the
    failing call left: the engine is not called again, neither on that
    window nor on a later one. *)
Theorem feed_failure_is_fatal (E : Recognizer) (audio_data : Np.int16_array)
  (sample_rate : Z) (model_path : string) (debug : bool) (w : world)
  (r : session E) (k : nat) (st : frame E) (c : list byte) (s' : session E)
  (e : Py.exn) :
  open_session E model_path sample_rate = inr r ->
  loop E debug (frame0 E (quieten debug w) r) (firstn k (chunks audio_data))
  = Normal st ->
  nth_error (chunks audio_data) k = Some c ->
  AcceptWaveform E (recognizer st) c = (s', inl e) ->
  transcribe_audio E audio_data sample_rate model_path debug w = inl e
  /\ transcribe_run E audio_data sample_rate model_path debug w
     = FeedRaised e {| env := env st; recognizer := s';
                       subtitles := subtitles st;
                       segment_start := segment_start st |}
  /\ List.length (engine_responses E audio_data sample_rate model_path) = S k.
Proof.
  intros Hr Hk Hc Ha.
  assert (Hl : loop E debug (frame0 E (quieten debug w) r) (chunks audio_data)
               = Raised e {| env := env st; recognizer := s';
                             subtitles := subtitles st;
                             segment_start := segment_start st |}).
  { rewrite <- (firstn_skipn_middle _ _ Hc), loop_app, Hk. cbn [loop].
    unfold body. rewrite Ha. reflexivity. }
  unfold transcribe_audio, transcribe_run. rewrite Hr.
  fold (frame0 E (quieten debug w) r). rewrite Hl.
  split; [reflexivity|]. split; [reflexivity|].
  unfold engine_responses. rewrite Hr.
  apply (responses_until_raise E debug k _ _ _ _ _ _ Hk Hc Ha).
Qed.

(** ** Timing of the entries *)

Lemma inject_Z_step (off : Z) :
  (inject_Z (off + 3) == inject_Z off + 3)%Q.
Proof. rewrite inject_Z_plus. reflexivity. Qed.

Lemma inject_Z_nonneg (off : Z) : 0 <= off -> (0 <= inject_Z off)%Q.
Proof. intros H. change 0%Q with (inject_Z 0). now rewrite <- Zle_Qle. Qed.

Lemma valid_entry_at (off : Z) (w : word_info) :
  0 <= off -> valid_word w = true -> valid_entry (entry_at off w).
Proof.
  intros Hoff Hw. apply andb_true_iff in Hw as [H0 H1].
  apply Qle_bool_iff in H0, H1. apply inject_Z_nonneg in Hoff.
  unfold valid_entry, entry_at, entry_start, entry_end. cbn [fst snd].
  split; lra.
Qed.

Section Timing.

Variable E : Recognizer.
Variable debug : bool.

(** Valid words give valid entries, turn after turn. *)
Lemma loop_valid (cs : list (list byte)) (st : frame E) :
  forallb valid_response (responses E (recognizer st) cs) = true ->
  0 <= segment_start st ->
  Forall valid_entry (subtitles st) ->
  Forall valid_entry (subtitles (reached (loop E debug st cs))).
Proof.
  revert st. induction cs as [|c cs IH]; intros st Hrs Hoff Hsub;
    cbn [loop responses] in *; [exact Hsub|].
  rewrite body_feed. destruct (feed E (recognizer st) c) as [s' [|r|e]];
    cbn [forallb valid_response] in Hrs.
  - apply IH; assumption.
  - apply andb_true_iff in Hrs as [Hr Hrs].
    apply IH; cbn [recognizer subtitles segment_start].
    + exact Hrs.
    + destruct (speech (Final r)); lia.
    + apply Forall_app. split; [exact Hsub|].
      destruct (speech (Final r)); [|constructor].
      apply Forall_map. rewrite forallb_forall in Hr.
      apply Forall_forall. intros x Hx. apply valid_entry_at; auto.
  - exact Hsub.
Qed.

End Timing.

(** C9. When every word in every finalized result the engine gives during
    the call has [0 <= start <= end], every entry of the list that
    [transcribe_audio] returns has [0 <= start <= end]. *)
Theorem entries_valid (E : Recognizer) (audio_data : Np.int16_array)
  (sample_rate : Z) (model_path : string) (debug : bool) (w : world)
  (l : list entry) :
  forallb valid_response
          (engine_responses E audio_data sample_rate model_path) = true ->
  transcribe_audio E audio_data sample_rate model_path debug w = inr l ->
  Forall valid_entry l.
Proof.
  unfold engine_responses, transcribe_audio, transcribe_run.
  destruct (open_session E model_path sample_rate) as [e|r]; [discriminate|].
  intros Hrs Hl.
  pose proof (loop_valid E debug (chunks audio_data)
                {| env := quieten debug w; recognizer := r;
                   subtitles := []; segment_start := 0 |}
                Hrs ltac:(cbn; lia) ltac:(constructor)) as H.
  destruct (loop E debug _ _); [|discriminate].
  cbn [subtitles] in Hl. injection Hl as <-. exact H.
Qed.

(** ** Order of the entries *)

Lemma sorted_app {A : Type} (R : A -> A -> Prop) (l1 l2 : list A) :
  Sorted R l1 -> Sorted R l2 ->
  (forall x y, In x l1 -> In y l2 -> R x y) ->
  Sorted R (l1 ++ l2).
Proof.
  intros H1 H2 H. induction H1 as [|a l1 Hs IH Hhd]; [exact H2|].
  cbn [app]. constructor.
  - apply IH. intros x y Hx Hy. apply H; [now right|exact Hy].
  - destruct Hhd as [|b l1 Hab]; cbn [app].
    + destruct l2 as [|y l2]; constructor.
      apply H; now left.
    + constructor. exact Hab.
Qed.

(** Words in ascending order, none before [prev], give entries in order,
    none before [off + prev]. *)
Lemma ascend_sorted (off : Z) (ws : list word_info) (prev : Q) :
  starts_ascend prev ws = true ->
  Sorted starts_in_order (map (entry_at off) ws)
  /\ Forall (fun w => (prev <= start w)%Q) ws.
Proof.
  revert prev. induction ws as [|w ws IH]; intros prev H; cbn in *.
  - split; constructor.
  - apply andb_true_iff in H as [Hp Hws]. apply Qle_bool_iff in Hp.
    destruct (IH _ Hws) as [Hs Hall]. split.
    + constructor; [exact Hs|].
      destruct ws as [|w2 ws]; constructor.
      inversion Hall; subst.
      unfold starts_in_order, entry_at, entry_start. cbn [fst]. lra.
    + constructor; [exact Hp|].
      eapply Forall_impl; [|exact Hall]. cbn. intros x Hx. lra.
Qed.

Section Order.

Variable E : Recognizer.
Variable debug : bool.

(** Entries in order, none after [segment_start], stay so turn after turn
    when the words of each result fit the step. *)
Lemma loop_sorted (cs : list (list byte)) (st : frame E) :
  forallb fitting_response (responses E (recognizer st) cs) = true ->
  Sorted starts_in_order (subtitles st) ->
  Forall (not_after (segment_start st)) (subtitles st) ->
  Sorted starts_in_order (subtitles (reached (loop E debug st cs))).
Proof.
  revert st. induction cs as [|c cs IH]; intros st Hrs Hs Hb;
    cbn [loop responses] in *; [exact Hs|].
  rewrite body_feed. destruct (feed E (recognizer st) c) as [s' [|r|e]];
    cbn [forallb fitting_response] in Hrs.
  - apply IH; assumption.
  - apply andb_true_iff in Hrs as [Hr Hrs].
    cbn [speech] in *.
    destruct (blank (text r)); cbn [negb orb] in *;
      apply IH; cbn [recognizer subtitles segment_start];
      rewrite ?app_nil_r, ?Z.add_0_r; try assumption.
    + apply andb_true_iff in Hr as [Ha Hle].
      destruct (ascend_sorted (segment_start st) _ _ Ha) as [Hnew Hge].
      apply sorted_app; [exact Hs|exact Hnew|].
      intros x y Hx Hy. rewrite Forall_forall in Hb, Hge.
      apply in_map_iff in Hy as [wd [<- Hwd]].
      specialize (Hb _ Hx). specialize (Hge _ Hwd).
      unfold starts_in_order, not_after, entry_at, entry_start in *.
      cbn [fst]. lra.
    + apply andb_true_iff in Hr as [Ha Hle].
      rewrite forallb_forall in Hle.
      apply Forall_app. split.
      * eapply Forall_impl; [|exact Hb]. unfold not_after. intros x Hx.
        rewrite inject_Z_step. lra.
      * apply Forall_map, Forall_forall. intros wd Hwd.
        specialize (Hle _ Hwd). apply Qle_bool_iff in Hle.
        unfold not_after, entry_at, entry_start. cbn [fst].
        rewrite inject_Z_step. unfold segment_step in Hle.
        change (inject_Z 3) with 3%Q in Hle. lra.
  - exact Hs.
Qed.

End Order.

(** C2, as amended. When every finalized result with a text that is not
    blank lists its words in non-decreasing order of [start], each [start]
    between 0 and the step of 3 seconds, the list that [transcribe_audio]
    returns is non-decreasing in [start]. *)
Theorem entries_sorted_when_words_fit (E : Recognizer)
  (audio_data : Np.int16_array) (sample_rate : Z) (model_path : string)
  (debug : bool) (w : world) (l : list entry) :
  forallb fitting_response
          (engine_responses E audio_data sample_rate model_path) = true ->
  transcribe_audio E audio_data sample_rate model_path debug w = inr l ->
  sorted_by_start l.
Proof.
  unfold engine_responses, transcribe_audio, transcribe_run.
  destruct (open_session E model_path sample_rate) as [e|r]; [discriminate|].
  intros Hrs Hl.
  pose proof (loop_sorted E debug (chunks audio_data)
                {| env := quieten debug w; recognizer := r;
                   subtitles := []; segment_start := 0 |}
                Hrs ltac:(constructor) ltac:(constructor)) as H.
  destruct (loop E debug _ _); [|discriminate].
  cbn [subtitles] in Hl. injection Hl as <-. exact H.
Qed.

(** ** The debug switch *)

Section Debug.

Variable E : Recognizer.

(** The loop does the same to everything but the world, with or without
    [debug]. *)
Lemma loop_debug (cs : list (list byte)) (st1 st2 : frame E) :
  core st1 = core st2 ->
  match loop E true st1 cs, loop E false st2 cs with
  | Normal a, Normal b => core a = core b
  | Raised e a, Raised f b => e = f /\ core a = core b
  | _, _ => False
  end.
Proof.
  revert st1 st2. induction cs as [|c cs IH]; intros st1 st2 H;
    cbn [loop]; [exact H|].
  rewrite !body_feed. unfold core in H. injection H as Hr Hs Ho.
  rewrite Hr, Hs, Ho.
  destruct (feed E (recognizer st2) c) as [s' [|r|e]].
  - apply IH. reflexivity.
  - apply IH. reflexivity.
  - split; reflexivity.
Qed.

(** Without [debug] the loop leaves the world as it is. *)
Lemma loop_quiet (cs : list (list byte)) (st : frame E) :
  env (reached (loop E false st cs)) = env st.
Proof.
  revert st. induction cs as [|c cs IH]; intros st; cbn [loop];
    [reflexivity|].
  rewrite body_feed.
  destruct (feed E (recognizer st) c) as [s' [|r|e]];
    try rewrite IH; reflexivity.
Qed.

End Debug.

(** C10. Two calls on the same buffer, sample rate and model with the same
    engine, one with [debug] and one without, in whatever worlds, end the
    same way: the same list returned or the same exception raised, and the
    same session, subtitles and [segment_start] in their last frames; the
    call without [debug] writes nothing. *)
Theorem debug_changes_no_result (E : Recognizer) (audio_data : Np.int16_array)
  (sample_rate : Z) (model_path : string) (w1 w2 : world) :
  transcribe_audio E audio_data sample_rate model_path true w1
  = transcribe_audio E audio_data sample_rate model_path false w2
  /\ option_map core
       (last_frame (transcribe_run E audio_data sample_rate model_path true w1))
     = option_map core
       (last_frame (transcribe_run E audio_data sample_rate model_path false w2))
  /\ (forall st,
        last_frame (transcribe_run E audio_data sample_rate model_path false w2)
        = Some st -> stdout (env st) = stdout w2).
Proof.
  unfold transcribe_audio, transcribe_run.
  destruct (open_session E model_path sample_rate) as [e|r].
  - repeat split. discriminate.
  - pose proof (loop_debug E (chunks audio_data)
                  {| env := quieten true w1; recognizer := r;
                     subtitles := []; segment_start := 0 |}
                  {| env := quieten false w2; recognizer := r;
                     subtitles := []; segment_start := 0 |}
                  eq_refl) as H.
    split; [|split].
    + destruct (loop E true _ _) as [a|e a], (loop E false _ _) as [b|f b];
        try contradiction; cbn [subtitles].
      * unfold core in H. congruence.
      * destruct H as [-> _]. reflexivity.
    + destruct (loop E true _ _) as [a|e a], (loop E false _ _) as [b|f b];
        try contradiction; cbn [last_frame option_map].
      * f_equal. exact H.
      * f_equal. apply H.
    + intros st Hst.
      pose proof (loop_quiet E (chunks audio_data)
                    {| env := quieten false w2; recognizer := r;
                       subtitles := []; segment_start := 0 |}) as Hq.
      destruct (loop E false _ _) as [b|f b]; cbn [last_frame reached] in *;
        injection Hst as <-; cbn [env]; rewrite Hq; reflexivity.
Qed.

(** ** The scenario of three windows *)

Lemma windows_20000 (audio_data : Np.int16_array) :
  Z.of_nat (List.length audio_data) = 20000 ->
  windows audio_data
  = [Py.slice audio_data 0 8000; Py.slice audio_data 8000 16000;
     Py.slice audio_data 16000 24000].
Proof.
  intros Hlen. unfold windows, windows_of. rewrite Hlen. reflexivity.
Qed.

(** C1. On a buffer of 20000 samples the loop makes three turns, on windows
    of 8000, 8000 and 4000 samples; when the engine answers them with: not
    final; final, "hello world" with hello from 0.0 to 0.4 and world from
    0.5 to 0.9; final with an empty text, [transcribe_audio] returns the two
    entries (0.0, 0.4, hello) and (0.5, 0.9, world), and [segment_start] is
    0, 0, 3, 3 before the first turn and after each of the three, so it ends
    at 3, moved once. *)
Theorem scenario_output (audio_data : Np.int16_array) (debug : bool)
  (w : world) :
  Z.of_nat (List.length audio_data) = 20000 ->
  map (fun win => Z.of_nat (List.length win)) (windows audio_data)
  = [8000; 8000; 4000]
  /\ engine_responses (Script.engine scenario) audio_data 16000
                      model_path_default
     = scenario
  /\ transcribe_audio (Script.engine scenario) audio_data 16000
                      model_path_default debug w
     = inr [(0, 0.4, Py.of_string "hello");
            (0.5, 0.9, Py.of_string "world")]%Q
  /\ map (fun k =>
            segment_start
              (frame_after (Script.engine scenario) debug
                 (frame0 (Script.engine scenario) (quieten debug w)
                         (fresh scenario))
                 (chunks audio_data) k))
         [0; 1; 2; 3]%nat
     = [0; 0; 3; 3]
  /\ option_map segment_start
       (last_frame (transcribe_run (Script.engine scenario) audio_data 16000
                                   model_path_default debug w))
     = Some 3.
Proof.
  intros Hlen. pose proof (windows_20000 audio_data Hlen) as Hw. split.
  - rewrite Hw. cbn [map].
    rewrite !slice_firstn_skipn by lia.
    rewrite !length_firstn, !length_skipn.
    repeat (f_equal; try lia).
  - unfold engine_responses, transcribe_audio, transcribe_run, frame_after,
      chunks.
    rewrite Hw. cbn [map].
    generalize (Np.tobytes (Py.slice audio_data 0 8000)) as c1.
    generalize (Np.tobytes (Py.slice audio_data 8000 16000)) as c2.
    generalize (Np.tobytes (Py.slice audio_data 16000 24000)) as c3.
    intros c3 c2 c1. repeat split.
Qed.

(** Witness of [scenario_output]: 20000 samples of silence. *)
Lemma scenario_output_witness :
  Z.of_nat (List.length (zeros 20000)) = 20000
  /\ transcribe_audio (Script.engine scenario) (zeros 20000) 16000
                      model_path_default false world0
     = inr [(0, 0.4, Py.of_string "hello");
            (0.5, 0.9, Py.of_string "world")]%Q.
Proof.
  split; [vm_compute; reflexivity|].
  apply (scenario_output (zeros 20000) false world0).
  vm_compute. reflexivity.
Defined.

(** ** An utterance longer than the step *)

(** C2, as stated, fails: the second word of an utterance that lasts more
    than three seconds starts at 3.5, and the first word of the next
    utterance, 0.2 into its segment, is placed at 3.2, after it in the list
    and before it in time. *)
Lemma long_utterance_breaks_order :
  transcribe_audio (Script.engine two_utterances) (zeros 48000) 8000
                   model_path_default false world0
  = inr [(0, 0.5, Py.of_string "slow");
         (3.5, 4, Py.of_string "speech");
         (3.2, 3.6, Py.of_string "next")]%Q
  /\ ~ sorted_by_start [(0, 0.5, Py.of_string "slow");
                        (3.5, 4, Py.of_string "speech");
                        (3.2, 3.6, Py.of_string "next")]%Q.
Proof.
  split; [vm_compute; reflexivity|].
  intros H. inversion H as [|a l Hl Hhd]; subst.
  inversion Hl as [|a' l' Hl' Hhd']; subst.
  inversion Hhd' as [|b l'' Hab]; subst.
  vm_compute in Hab. apply Hab. reflexivity.
Qed.

(** Witness of [entries_sorted_when_words_fit]: the scenario of three
    windows. *)
Lemma entries_sorted_when_words_fit_witness :
  forallb fitting_response
          (engine_responses (Script.engine scenario) (zeros 20000) 16000
                            model_path_default) = true
  /\ transcribe_audio (Script.engine scenario) (zeros 20000) 16000
                      model_path_default false world0
     = inr [(0, 0.4, Py.of_string "hello");
            (0.5, 0.9, Py.of_string "world")]%Q
  /\ sorted_by_start [(0, 0.4, Py.of_string "hello");
                      (0.5, 0.9, Py.of_string "world")]%Q.
Proof.
  split; [vm_compute; reflexivity|]. split; [vm_compute; reflexivity|].
  apply (entries_sorted_when_words_fit (Script.engine scenario) (zeros 20000)
           16000 model_path_default false world0);
    vm_compute; reflexivity.
Defined.

(** Witness of [entries_valid]: the scenario of three windows. *)
Lemma entries_valid_witness :
  forallb valid_response
          (engine_responses (Script.engine scenario) (zeros 20000) 16000
                            model_path_default) = true
  /\ Forall valid_entry [(0, 0.4, Py.of_string "hello");
                         (0.5, 0.9, Py.of_string "world")]%Q.
Proof.
  split; [vm_compute; reflexivity|].
  apply (entries_valid (Script.engine scenario) (zeros 20000)
           16000 model_path_default false world0);
    vm_compute; reflexivity.
Defined.

(** Witness of [segment_start_steps]: the scenario of three windows. *)
Lemma segment_start_steps_witness :
  open_session (Script.engine scenario) model_path_default 16000
  = inr (fresh scenario)
  /\ segment_start
       (frame_after (Script.engine scenario) false (start_frame scenario)
                    (chunks (zeros 20000)) 3)
     = 3 * count_speech
             (firstn 3 (engine_responses (Script.engine scenario)
                          (zeros 20000) 16000 model_path_default)).
Proof.
  split; [reflexivity|].
  exact (proj1 (proj2 (segment_start_steps (Script.engine scenario)
                         (zeros 20000) 16000 model_path_default false world0
                         (fresh scenario) eq_refl))
               3%nat).
Defined.

(** Witness of [silence_turn]: the third window of the scenario. *)
Lemma silence_turn_witness :
  loop (Script.engine scenario) false (start_frame scenario)
       (firstn 2 (chunks (zeros 20000)))
  = Normal (frame_after (Script.engine scenario) false (start_frame scenario)
                        (chunks (zeros 20000)) 2)
  /\ blank (text Script.silence) = true
  /\ exists st',
       loop (Script.engine scenario) false (start_frame scenario)
            (firstn 3 (chunks (zeros 20000))) = Normal st'
       /\ subtitles st'
          = subtitles (frame_after (Script.engine scenario) false
                         (start_frame scenario) (chunks (zeros 20000)) 2)
       /\ segment_start st'
          = segment_start (frame_after (Script.engine scenario) false
                             (start_frame scenario) (chunks (zeros 20000)) 2).
Proof.
  split; [vm_compute; reflexivity|]. split; [reflexivity|].
  apply (silence_turn (Script.engine scenario) false (start_frame scenario)
           (frame_after (Script.engine scenario) false (start_frame scenario)
                        (chunks (zeros 20000)) 2)
           (chunks (zeros 20000)) 2
           (Np.tobytes (zeros 4000))
           {| Script.pending := Script.silence; Script.script := [] |}
           Script.silence);
    vm_compute; reflexivity.
Defined.

(** Witness of [not_final_turn]: the first window of the scenario. *)
Lemma not_final_turn_witness :
  AcceptWaveform (Script.engine scenario) (fresh scenario)
                 (Np.tobytes (zeros 8000))
  = (fresh [Final hello_world; Final Script.silence], inr false)
  /\ loop (Script.engine scenario) false (start_frame scenario)
          (firstn 1 (chunks (zeros 20000)))
     = Normal (frame0 (Script.engine scenario) (quieten false world0)
                      (fresh [Final hello_world; Final Script.silence])).
Proof.
  split; [reflexivity|].
  apply (not_final_turn (Script.engine scenario) false (start_frame scenario)
           (start_frame scenario) (chunks (zeros 20000)) 0
           (Np.tobytes (zeros 8000))
           (fresh [Final hello_world; Final Script.silence]));
    vm_compute; reflexivity.
Defined.

(** Witness of [empty_audio]: the scripted engine on no sample at all. *)
Lemma empty_audio_witness :
  open_session (Script.engine scenario) model_path_default 16000
  = inr (fresh scenario)
  /\ transcribe_audio (Script.engine scenario) [] 16000 model_path_default
                      false world0
     = inr [].
Proof.
  split; [reflexivity|].
  apply (proj2 (empty_audio (Script.engine scenario) 16000 model_path_default
                            false world0) (fresh scenario) eq_refl).
Defined.

(** Witness of [feed_failure_is_fatal]: the engine fails on the second of
    three windows; the third answer of the script is still there. *)
Lemma feed_failure_is_fatal_witness :
  nth_error (chunks (zeros 20000)) 1 = Some (Np.tobytes (zeros 8000))
  /\ transcribe_audio (Script.engine failing_second) (zeros 20000) 16000
                      model_path_default false world0
     = inl "Failed to process waveform"%string
  /\ transcribe_run (Script.engine failing_second) (zeros 20000) 16000
                    model_path_default false world0
     = FeedRaised "Failed to process waveform"%string
         (Build_frame (Script.engine failing_second)
            (quieten false world0)
            (fresh [Final hello_world])
            [(0, 0.4, Py.of_string "hello");
             (0.5, 0.9, Py.of_string "world")]%Q
            3)
  /\ List.length (engine_responses (Script.engine failing_second)
                    (zeros 20000) 16000 model_path_default) = 2%nat.
Proof.
  split; [vm_compute; reflexivity|].
  apply (feed_failure_is_fatal (Script.engine failing_second) (zeros 20000)
           16000 model_path_default false world0 (fresh failing_second) 1
           (Build_frame (Script.engine failing_second)
              (quieten false world0)
              (fresh [Raises "Failed to process waveform"%string;
                      Final hello_world])
              [(0, 0.4, Py.of_string "hello");
               (0.5, 0.9, Py.of_string "world")]%Q
              3)
           (Np.tobytes (zeros 8000))
           (fresh [Final hello_world])
           "Failed to process waveform"%string);
    vm_compute; reflexivity.
Defined.

(** * An empty buffer and no model *)

(** C6, as stated, fails: the model and the session are created before the
    loop (lines 39-40), so on an empty buffer too the call raises when the
    model cannot be loaded. *)
Lemma empty_audio_without_model :
  chunks [] = []
  /\ transcribe_audio no_model [] 16000 model_path_default false world0
     = inl "Failed to create a model"%string.
Proof. split; reflexivity. Qed.

(** * More of [transcribe_audio] *)

Section Answers.

Variable E : Recognizer.
Variable debug : bool.

Lemma placed_words (off : Z) (r : final_result) :
  (if speech (Final r) then map (entry_at off) (get_result r) else [])
  = map (entry_at off) (words_of (Final r)).
Proof. cbn [speech words_of]. now destruct (blank (text r)). Qed.

(** The subtitles after the loop are those before it, then the entries the
    answers give. *)
Lemma loop_placed (cs : list (list byte)) (st : frame E) :
  subtitles (reached (loop E debug st cs))
  = subtitles st ++ placed (segment_start st)
                           (responses E (recognizer st) cs).
Proof.
  revert st. induction cs as [|c cs IH]; intros st; cbn [loop responses].
  - cbn [reached placed]. now rewrite app_nil_r.
  - rewrite body_feed. destruct (feed E (recognizer st) c) as [s' [|r|e]].
    + rewrite IH. cbn [recognizer subtitles segment_start placed words_of
                       speech map app]. reflexivity.
    + rewrite IH. cbn [recognizer subtitles segment_start placed].
      rewrite placed_words, <- app_assoc.
      destruct (speech (Final r)); rewrite ?Z.add_0_r; reflexivity.
    + cbn [reached subtitles placed words_of map app]. now rewrite app_nil_r.
Qed.

(** The loop ends with the exception among the answers, or normally when
    there is none. *)
Lemma loop_outcome (cs : list (list byte)) (st : frame E) :
  match loop E debug st cs with
  | Normal _ => first_raise (responses E (recognizer st) cs) = None
  | Raised e _ => first_raise (responses E (recognizer st) cs) = Some e
  end.
Proof.
  revert st. induction cs as [|c cs IH]; intros st; cbn [loop responses];
    [reflexivity|].
  rewrite body_feed. destruct (feed E (recognizer st) c) as [s' [|r|e]];
    cbn [first_raise]; try reflexivity.
  - match goal with |- context [loop E debug ?st1 cs] =>
      exact (IH st1) end.
  - match goal with |- context [loop E debug ?st1 cs] =>
      exact (IH st1) end.
Qed.

(** Without an exception every chunk gets its answer. *)
Lemma responses_length (s : session E) (cs : list (list byte)) :
  first_raise (responses E s cs) = None ->
  List.length (responses E s cs) = List.length cs.
Proof.
  revert s. induction cs as [|c cs IH]; intros s; cbn [responses];
    [reflexivity|].
  destruct (feed E s c) as [s' [|r|e]]; cbn [first_raise List.length];
    intros H; try discriminate; f_equal; apply IH, H.
Qed.

(** What [debug] prints along the loop. *)
Lemma loop_stdout (cs : list (list byte)) (st : frame E) :
  env (reached (loop E true st cs))
  = {| log_level := log_level (env st);
       stdout := stdout (env st)
                 ++ recognized_lines (responses E (recognizer st) cs) |}.
Proof.
  revert st. induction cs as [|c cs IH]; intros st; cbn [loop responses].
  - cbn [reached recognized_lines flat_map]. rewrite app_nil_r.
    now destruct (env st).
  - rewrite body_feed. destruct (feed E (recognizer st) c) as [s' [|r|e]].
    + rewrite IH. reflexivity.
    + rewrite IH. cbn [env recognizer print log_level stdout].
      unfold recognized_lines. cbn [flat_map]. now rewrite <- app_assoc.
    + cbn [reached env recognized_lines flat_map app]. rewrite app_nil_r.
      now destruct (env st).
Qed.

End Answers.

Lemma placed_entry_words (rs : list response) (off : Z) :
  map entry_word (placed off rs)
  = flat_map (fun a => map word (words_of a)) rs.
Proof.
  revert off. induction rs as [|a rs IH]; intros off; cbn [placed flat_map];
    [reflexivity|].
  rewrite map_app, IH, map_map. reflexivity.
Qed.

(** A list returned is the one the answers give, and no answer is an
    exception. *)
Lemma transcribe_audio_inr (E : Recognizer) (audio_data : Np.int16_array)
  (sample_rate : Z) (model_path : string) (debug : bool) (w : world)
  (l : list entry) :
  transcribe_audio E audio_data sample_rate model_path debug w = inr l ->
  exists r,
    open_session E model_path sample_rate = inr r
    /\ first_raise (responses E r (chunks audio_data)) = None
    /\ l = placed 0 (responses E r (chunks audio_data)).
Proof.
  unfold transcribe_audio, transcribe_run.
  destruct (open_session E model_path sample_rate) as [e|r]; [discriminate|].
  pose proof (loop_outcome E debug (chunks audio_data)
                (frame0 E (quieten debug w) r)) as Ho.
  pose proof (loop_placed E debug (chunks audio_data)
                (frame0 E (quieten debug w) r)) as Hp.
  unfold frame0 in Ho, Hp.
  cbn [recognizer subtitles segment_start app] in Ho, Hp.
  destruct (loop E debug _ _) as [st|e st]; [|discriminate].
  cbn [subtitles reached] in *. intros H. injection H as <-.
  exists r. auto.
Qed.

(** X1. What [transcribe_audio] gives, by the answers of the engine: the
    exception of the session when none is created; else the first exception
    among the answers; else the words of the finalized results whose text is
    not blank, in order, each shifted by 3 for every such result before its
    own. *)
Theorem transcribe_audio_by_answers (E : Recognizer)
  (audio_data : Np.int16_array) (sample_rate : Z) (model_path : string)
  (debug : bool) (w : world) :
  transcribe_audio E audio_data sample_rate model_path debug w
  = match open_session E model_path sample_rate with
    | inl e => inl e
    | inr _ =>
        let rs := engine_responses E audio_data sample_rate model_path in
        match first_raise rs with
        | Some e => inl e
        | None => inr (placed 0 rs)
        end
    end.
Proof.
  unfold transcribe_audio, transcribe_run, engine_responses.
  destruct (open_session E model_path sample_rate) as [e|r]; [reflexivity|].
  cbv zeta.
  pose proof (loop_outcome E debug (chunks audio_data)
                (frame0 E (quieten debug w) r)) as Ho.
  pose proof (loop_placed E debug (chunks audio_data)
                (frame0 E (quieten debug w) r)) as Hp.
  unfold frame0 in Ho, Hp. cbn [recognizer subtitles segment_start app] in Ho, Hp.
  destruct (loop E debug _ _) as [st|e st]; rewrite Ho; [|reflexivity].
  cbn [subtitles reached] in *. now rewrite Hp.
Qed.



(** X2. The list returned holds the words of the finalized results whose
    text is not blank, every one of them once, in the order the engine gave
    them, and nothing else. *)
Theorem no_word_lost_or_added (E : Recognizer) (audio_data : Np.int16_array)
  (sample_rate : Z) (model_path : string) (debug : bool) (w : world)
  (l : list entry) :
  transcribe_audio E audio_data sample_rate model_path debug w = inr l ->
  map entry_word l
  = flat_map (fun a => map word (words_of a))
             (engine_responses E audio_data sample_rate model_path)
  /\ List.length l
     = list_sum (map (fun a => List.length (words_of a))
                     (engine_responses E audio_data sample_rate model_path)).
Proof.
  intros H. destruct (transcribe_audio_inr _ _ _ _ _ _ _ H) as (r & Hr & _ & ->).
  unfold engine_responses. rewrite Hr. split.
  - apply placed_entry_words.
  - rewrite <- (length_map entry_word), placed_entry_words, length_flat_map.
    f_equal. apply map_ext. intros a. apply length_map.
Qed.

(** X4. When [transcribe_audio] returns, the engine has answered every
    window once: as many answers as windows, the length divided by 8000
    rounded up, and no exception among them. *)
Theorem one_answer_per_window (E : Recognizer) (audio_data : Np.int16_array)
  (sample_rate : Z) (model_path : string) (debug : bool) (w : world)
  (l : list entry) :
  transcribe_audio E audio_data sample_rate model_path debug w = inr l ->
  List.length (engine_responses E audio_data sample_rate model_path)
  = List.length (windows audio_data)
  /\ Z.of_nat (List.length (engine_responses E audio_data sample_rate
                                             model_path))
     = (Z.of_nat (List.length audio_data) + 7999) / 8000
  /\ first_raise (engine_responses E audio_data sample_rate model_path)
     = None.
Proof.
  intros H. destruct (transcribe_audio_inr _ _ _ _ _ _ _ H) as (r & Hr & Hf & _).
  unfold engine_responses. rewrite Hr.
  assert (Hl : List.length (responses E r (chunks audio_data))
               = List.length (windows audio_data)).
  { rewrite (responses_length E r _ Hf). unfold chunks. apply length_map. }
  split; [exact Hl|]. split; [|exact Hf].
  rewrite Hl. unfold windows. rewrite windows_of_length by reflexivity.
  unfold Py.range_len, chunk_size.
  rewrite Z2Nat.id by (apply Z.div_pos; lia). f_equal. lia.
Qed.

(** Witness of [no_word_lost_or_added]: the scenario of three windows. *)
Lemma no_word_lost_or_added_witness :
  transcribe_audio (Script.engine scenario) (zeros 20000) 16000
                   model_path_default false world0
  = inr [(0, 0.4, Py.of_string "hello");
         (0.5, 0.9, Py.of_string "world")]%Q
  /\ map entry_word [(0, 0.4, Py.of_string "hello");
                     (0.5, 0.9, Py.of_string "world")]%Q
     = flat_map (fun a => map word (words_of a))
                (engine_responses (Script.engine scenario) (zeros 20000)
                                  16000 model_path_default).
Proof.
  split; [vm_compute; reflexivity|].
  apply (no_word_lost_or_added (Script.engine scenario) (zeros 20000) 16000
           model_path_default false world0).
  vm_compute. reflexivity.
Defined.

(** Witness of [one_answer_per_window]: three windows, three answers. *)
Lemma one_answer_per_window_witness :
  transcribe_audio (Script.engine scenario) (zeros 20000) 16000
                   model_path_default false world0
  = inr [(0, 0.4, Py.of_string "hello");
         (0.5, 0.9, Py.of_string "world")]%Q
  /\ List.length (engine_responses (Script.engine scenario) (zeros 20000)
                                   16000 model_path_default)
     = List.length (windows (zeros 20000)).
Proof.
  split; [vm_compute; reflexivity|].
  apply (one_answer_per_window (Script.engine scenario) (zeros 20000) 16000
           model_path_default false world0
           [(0, 0.4, Py.of_string "hello");
            (0.5, 0.9, Py.of_string "world")]%Q).
  vm_compute. reflexivity.
Defined.

(** X5. With [debug] a call that returns has printed, after what was on the
    output before, one line for each finalized result, the blank ones too,
    in order, then one line with the list it returns; the log level is as
    it was. *)
Theorem debug_prints_results (E : Recognizer) (audio_data : Np.int16_array)
  (sample_rate : Z) (model_path : string) (w : world) (st : frame E) :
  transcribe_run E audio_data sample_rate model_path true w = Returned st ->
  env st
  = {| log_level := log_level w;
       stdout := stdout w
                 ++ recognized_lines
                      (engine_responses E audio_data sample_rate model_path)
                 ++ [Subtitles (subtitles st)] |}.
Proof.
  unfold transcribe_run, engine_responses.
  destruct (open_session E model_path sample_rate) as [e|r]; [discriminate|].
  pose proof (loop_stdout E (chunks audio_data)
                (frame0 E (quieten true w) r)) as Hs.
  fold (frame0 E (quieten true w) r).
  destruct (loop E true _ _) as [st1|e st1]; [|discriminate].
  cbn [reached] in Hs. intros H. injection H as <-. cbn [env subtitles].
  rewrite Hs. unfold print, quieten.
  cbn [log_level stdout frame0 env recognizer negb].
  now rewrite <- app_assoc.
Qed.

(** Witness of [debug_prints_results]: the scenario prints its two
    finalized results, the silent one included, then the list. *)
Lemma debug_prints_results_witness :
  transcribe_run (Script.engine scenario) (zeros 20000) 16000
                 model_path_default true world0
  = Returned (Build_frame (Script.engine scenario)
                {| log_level := 0;
                   stdout := [Recognized hello_world;
                              Recognized Script.silence;
                              Subtitles [(0, 0.4, Py.of_string "hello");
                                         (0.5, 0.9, Py.of_string "world")]%Q] |}
                (fresh [])
                [(0, 0.4, Py.of_string "hello");
                 (0.5, 0.9, Py.of_string "world")]%Q
                3)
  /\ [Recognized hello_world; Recognized Script.silence;
      Subtitles [(0, 0.4, Py.of_string "hello");
                 (0.5, 0.9, Py.of_string "world")]%Q]
     = stdout world0
       ++ recognized_lines (engine_responses (Script.engine scenario)
                              (zeros 20000) 16000 model_path_default)
       ++ [Subtitles [(0, 0.4, Py.of_string "hello");
                      (0.5, 0.9, Py.of_string "world")]%Q].
Proof.
  split; [vm_compute; reflexivity|].
  exact (f_equal stdout
           (debug_prints_results (Script.engine scenario) (zeros 20000) 16000
              model_path_default world0 _ eq_refl)).
Defined.

(** X6. Without [debug] a call leaves the Kaldi log level at -1 and the
    output as it was, however it ends, also when no session could be
    created; with [debug] it leaves the log level as it was. *)
Theorem log_level_after_call (E : Recognizer) (audio_data : Np.int16_array)
  (sample_rate : Z) (model_path : string) (w : world) :
  final_world (transcribe_run E audio_data sample_rate model_path false w)
  = {| log_level := -1; stdout := stdout w |}
  /\ log_level
       (final_world (transcribe_run E audio_data sample_rate model_path true w))
     = log_level w.
Proof.
  unfold transcribe_run.
  destruct (open_session E model_path sample_rate) as [e|r];
    [split; reflexivity|].
  split.
  - pose proof (loop_quiet E (chunks audio_data)
                  (frame0 E (quieten false w) r)) as Hq.
    fold (frame0 E (quieten false w) r).
    destruct (loop E false _ _) as [st|e st]; cbn [final_world env reached] in *;
      rewrite Hq; reflexivity.
  - pose proof (loop_stdout E (chunks audio_data)
                  (frame0 E (quieten true w) r)) as Hs.
    fold (frame0 E (quieten true w) r).
    destruct (loop E true _ _) as [st|e st];
      cbn [final_world env reached print log_level] in *;
      rewrite Hs; reflexivity.
Qed.

(** X7. A finalized result with a text that is not blank and no word, its
    key ["result"] missing or empty, adds no entry and still moves
    [segment_start] by 3. *)
Theorem wordless_result_moves_offset (E : Recognizer) (debug : bool)
  (st0 st : frame E) (cs : list (list byte)) (k : nat) (c : list byte)
  (s' : session E) (r : final_result) :
  loop E debug st0 (firstn k cs) = Normal st ->
  nth_error cs k = Some c ->
  feed E (recognizer st) c = (s', Final r) ->
  blank (text r) = false ->
  get_result r = [] ->
  exists st',
    loop E debug st0 (firstn (S k) cs) = Normal st'
    /\ subtitles st' = subtitles st
    /\ segment_start st' = segment_start st + 3.
Proof.
  intros Hk Hc Hf Hb Hr.
  rewrite (firstn_snoc _ _ _ Hc), loop_app, Hk. cbn [loop].
  rewrite body_feed, Hf. cbn [speech]. rewrite Hb, Hr. cbn [negb map].
  eexists. split; [reflexivity|]. cbn [subtitles segment_start].
  split; [apply app_nil_r|reflexivity].
Qed.

(** Witness of [wordless_result_moves_offset]: a result without the key,
    then "hello world", whose words land 3 seconds later. *)
Lemma wordless_result_moves_offset_witness :
  feed (Script.engine wordless_then_hello) (fresh wordless_then_hello)
       (Np.tobytes (zeros 8000))
  = (fresh [Final hello_world], Final no_words)
  /\ get_result no_words = []
  /\ exists st',
       loop (Script.engine wordless_then_hello) false
            (start_frame wordless_then_hello)
            (firstn 1 (chunks (zeros 16000))) = Normal st'
       /\ subtitles st' = subtitles (start_frame wordless_then_hello)
       /\ segment_start st'
          = segment_start (start_frame wordless_then_hello) + 3.
Proof.
  split; [reflexivity|]. split; [reflexivity|].
  apply (wordless_result_moves_offset (Script.engine wordless_then_hello)
           false (start_frame wordless_then_hello)
           (start_frame wordless_then_hello) (chunks (zeros 16000)) 0
           (Np.tobytes (zeros 8000)) (fresh [Final hello_world]) no_words);
    vm_compute; reflexivity.
Defined.

(** * Samples and bytes *)

Lemma tobytes_length (a : Np.int16_array) :
  List.length (Np.tobytes a) = (2 * List.length a)%nat.
Proof.
  unfold Np.tobytes. induction a as [|s a IH]; cbn [flat_map]; [reflexivity|].
  rewrite length_app, IH. cbn [Np.sample_bytes List.length]. lia.
Qed.

Lemma tobytes_concat (ws : list Np.int16_array) :
  List.concat (map Np.tobytes ws) = Np.tobytes (List.concat ws).
Proof.
  induction ws as [|win ws IH]; cbn [map List.concat]; [reflexivity|].
  rewrite IH. unfold Np.tobytes. now rewrite flat_map_app.
Qed.

Lemma Z_of_byte_range (b : byte) : 0 <= NpBuffer.Z_of_byte b <= 255.
Proof.
  unfold NpBuffer.Z_of_byte. pose proof (Byte.to_N_bounded b). lia.
Qed.

Lemma Z_of_byte_of_Z (z : Z) : NpBuffer.Z_of_byte (Np.byte_of_Z z) = z mod 256.
Proof.
  unfold NpBuffer.Z_of_byte, Np.byte_of_Z.
  pose proof (Z.mod_pos_bound z 256 ltac:(lia)) as Hm.
  pose proof (Byte.to_of_N_option_map (Z.to_N (z mod 256))) as Ho.
  destruct (Byte.of_N (Z.to_N (z mod 256))) as [b|] eqn:Hb.
  - rewrite (Byte.to_of_N _ Hb). lia.
  - cbn [option_map] in Ho.
    destruct (N.leb_spec (Z.to_N (z mod 256)) 255); [discriminate|lia].
Qed.

Lemma byte_of_Z_of_byte (b : byte) (z : Z) :
  z mod 256 = NpBuffer.Z_of_byte b -> Np.byte_of_Z z = b.
Proof.
  intros H. unfold Np.byte_of_Z. rewrite H. unfold NpBuffer.Z_of_byte.
  now rewrite N2Z.id, Byte.of_to_N.
Qed.

Lemma int16_of_sample_bytes (s : Z) :
  NpBuffer.int16 s ->
  NpBuffer.int16_of_bytes (Np.byte_of_Z s) (Np.byte_of_Z (s / 256)) = s.
Proof.
  unfold NpBuffer.int16, NpBuffer.int16_of_bytes. intros Hs.
  rewrite !Z_of_byte_of_Z. cbv zeta.
  destruct (Z.ltb_spec (s mod 256 + 256 * ((s / 256) mod 256)) 32768);
    Z.div_mod_to_equations; lia.
Qed.

Lemma sample_bytes_of_int16 (lo hi : byte) :
  Np.sample_bytes (NpBuffer.int16_of_bytes lo hi) = [lo; hi]
  /\ NpBuffer.int16 (NpBuffer.int16_of_bytes lo hi).
Proof.
  pose proof (Z_of_byte_range lo) as Hlo.
  pose proof (Z_of_byte_range hi) as Hhi.
  unfold Np.sample_bytes, NpBuffer.int16, NpBuffer.int16_of_bytes. cbv zeta.
  destruct (Z.ltb_spec (NpBuffer.Z_of_byte lo + 256 * NpBuffer.Z_of_byte hi)
                       32768).
  - split; [|lia]. f_equal; [|f_equal]; apply byte_of_Z_of_byte;
      Z.div_mod_to_equations; lia.
  - split; [|lia]. f_equal; [|f_equal]; apply byte_of_Z_of_byte;
      Z.div_mod_to_equations; lia.
Qed.

(** X8. The chunks the engine is fed are the bytes of the buffer, all of
    them once and in order: end to end they are [audio_data.tobytes()];
    chunk [k] holds the bytes of window [k], two for each sample, so at most
    16000 and never none. *)
Theorem chunks_are_the_buffer (audio_data : Np.int16_array) :
  List.concat (chunks audio_data) = Np.tobytes audio_data
  /\ List.length (chunks audio_data) = List.length (windows audio_data)
  /\ (forall (k : nat) (c : list byte),
        nth_error (chunks audio_data) k = Some c ->
        exists win,
          nth_error (windows audio_data) k = Some win
          /\ c = Np.tobytes win
          /\ Z.of_nat (List.length c) = 2 * Z.of_nat (List.length win)
          /\ 0 < Z.of_nat (List.length c) <= 16000).
Proof.
  unfold chunks. split; [|split].
  - rewrite tobytes_concat. unfold windows.
    now rewrite windows_of_concat by reflexivity.
  - apply length_map.
  - intros k c Hc. rewrite nth_error_map in Hc.
    destruct (nth_error (windows audio_data) k) as [win|] eqn:Hw;
      [|discriminate].
    cbn [option_map] in Hc. injection Hc as <-. exists win.
    split; [reflexivity|]. split; [reflexivity|].
    rewrite tobytes_length.
    pose proof (windows_of_sizes chunk_size audio_data k win
                  ltac:(reflexivity) Hw) as [Hs _].
    unfold chunk_size in Hs. lia.
Qed.

(** X9. [np.frombuffer] undoes [tobytes]: the bytes of an [int16] array,
    read back as [int16], are the array. *)
Theorem frombuffer_tobytes (a : Np.int16_array) :
  Forall NpBuffer.int16 a ->
  NpBuffer.frombuffer (Np.tobytes a) = inr a.
Proof.
  intros Ha. unfold NpBuffer.frombuffer.
  assert (H : NpBuffer.samples (Np.tobytes a) = Some a).
  { induction Ha as [|s a Hs Ha IH]; [reflexivity|].
    unfold Np.tobytes. cbn [flat_map Np.sample_bytes app NpBuffer.samples].
    fold (Np.tobytes a). rewrite IH. now rewrite int16_of_sample_bytes. }
  now rewrite H.
Qed.

(** Witness of [frombuffer_tobytes]: the extreme samples and their
    neighbours. *)
Lemma frombuffer_tobytes_witness :
  Forall NpBuffer.int16 [-32768; -1; 0; 1; 255; 256; 32767]
  /\ NpBuffer.frombuffer (Np.tobytes [-32768; -1; 0; 1; 255; 256; 32767])
     = inr [-32768; -1; 0; 1; 255; 256; 32767].
Proof.
  assert (H : Forall NpBuffer.int16 [-32768; -1; 0; 1; 255; 256; 32767])
    by (repeat constructor; unfold NpBuffer.int16; lia).
  split; [exact H|]. apply (frombuffer_tobytes _ H).
Defined.

Lemma frombuffer_shape (buffer : list byte) :
  match NpBuffer.frombuffer buffer with
  | inr a =>
      Nat.even (List.length buffer) = true
      /\ (2 * List.length a)%nat = List.length buffer
      /\ Forall NpBuffer.int16 a
      /\ Np.tobytes a = buffer
  | inl e =>
      Nat.even (List.length buffer) = false
      /\ e = "buffer size must be a multiple of element size"%string
  end.
Proof.
  unfold NpBuffer.frombuffer.
  assert (H : forall n b, (List.length b <= n)%nat ->
            match NpBuffer.samples b with
            | Some a =>
                Nat.even (List.length b) = true
                /\ (2 * List.length a)%nat = List.length b
                /\ Forall NpBuffer.int16 a
                /\ Np.tobytes a = b
            | None => Nat.even (List.length b) = false
            end).
  { induction n as [|n IH]; intros [|lo [|hi rest]] Hn;
      cbn [List.length] in Hn; try lia;
      cbn [NpBuffer.samples]; try (repeat split; constructor).
    specialize (IH rest ltac:(lia)).
    destruct (NpBuffer.samples rest) as [a|].
    - destruct IH as (He & Hl & Hr & Hb).
      destruct (sample_bytes_of_int16 lo hi) as [Hsb Hi].
      cbn [List.length]. repeat split.
      + exact He.
      + lia.
      + constructor; assumption.
      + unfold Np.tobytes. cbn [flat_map]. fold (Np.tobytes a).
        rewrite Hsb, Hb. reflexivity.
    - exact IH. }
  specialize (H (List.length buffer) buffer (Nat.le_refl _)).
  destruct (NpBuffer.samples buffer); [exact H|split; [exact H|reflexivity]].
Qed.

(** X10. What [np.frombuffer] returns: a buffer of an even number of bytes
    gives an array of half as many samples, each an [int16], whose
    [tobytes] is the buffer again; a buffer of an odd number of bytes gives
    the [ValueError] and no array. *)
Theorem frombuffer_result (buffer : list byte) :
  match NpBuffer.frombuffer buffer with
  | inr a =>
      Nat.even (List.length buffer) = true
      /\ (2 * List.length a)%nat = List.length buffer
      /\ Forall NpBuffer.int16 a
      /\ Np.tobytes a = buffer
  | inl e =>
      Nat.even (List.length buffer) = false
      /\ e = "buffer size must be a multiple of element size"%string
  end.
Proof.
  pose proof (frombuffer_shape buffer) as H.
  destruct (NpBuffer.frombuffer buffer) as [e|a].
  - destruct H as [He Hm]. split; assumption.
  - destruct H as (He & Hl & Hr & Ht). repeat split; assumption.
Qed.

(** * [extract_audio_from_video] *)

Lemma next_audio_skips (before after : list json) (stream : json) :
  forallb other_stream before = true ->
  next_audio (before ++ stream :: after) = next_audio (stream :: after).
Proof.
  induction before as [|s before IH]; [reflexivity|].
  cbn [forallb app]. intros H. apply andb_true_iff in H as [Hs Hb].
  cbn [next_audio]. destruct s; try discriminate. cbn [get_or].
  unfold other_stream in Hs.
  destruct (dict_get (Py.of_string "codec_type") items) as [v|].
  - apply negb_true_iff in Hs. rewrite Hs. apply IH, Hb.
  - cbn [equals_str]. apply IH, Hb.
Qed.

Lemma next_audio_none (streams : list json) :
  forallb other_stream streams = true -> next_audio streams = inr None.
Proof.
  intros H. rewrite <- (app_nil_r streams).
  induction streams as [|s streams IH]; [reflexivity|].
  cbn [forallb] in H. apply andb_true_iff in H as [Hs Hb].
  cbn [app next_audio]. destruct s; try discriminate. cbn [get_or].
  unfold other_stream in Hs.
  destruct (dict_get (Py.of_string "codec_type") items) as [v|].
  - apply negb_true_iff in Hs. rewrite Hs. apply IH, Hb.
  - cbn [equals_str]. apply IH, Hb.
Qed.

Lemma next_audio_found (items : list (Py.str * json)) (after : list json) :
  audio_items items = true ->
  next_audio (JDict items :: after) = inr (Some (JDict items))
  /\ truth (JDict items) = true.
Proof.
  unfold audio_items. cbn [next_audio get_or truth].
  destruct items as [|kv items]; [discriminate|].
  destruct (dict_get _ (kv :: items)) as [v|]; [|discriminate].
  intros ->. split; reflexivity.
Qed.

(** The stream [next] gives is the first audio stream: a dict, after dicts
    that are no audio streams. *)
Lemma next_audio_first (l : list json) (found : json) :
  next_audio l = inr (Some found) ->
  exists before stream after,
    l = before ++ JDict stream :: after
    /\ forallb other_stream before = true
    /\ audio_items stream = true
    /\ found = JDict stream.
Proof.
  induction l as [|s l IH]; cbn [next_audio]; [discriminate|].
  destruct s; cbn [get_or]; try discriminate.
  destruct (dict_get (Py.of_string "codec_type") items) as [v|] eqn:Hd.
  - destruct (equals_str v (Py.of_string "audio")) eqn:Hv.
    + intros H. injection H as <-. exists [], items, l.
      unfold audio_items. rewrite Hd, Hv. auto.
    + intros H. destruct (IH H) as (before & stream & after & -> & Hb & Ha & ->).
      exists (JDict items :: before), stream, after.
      cbn [forallb other_stream app]. rewrite Hd, Hv, Hb. auto.
  - cbn [equals_str].
    intros H. destruct (IH H) as (before & stream & after & -> & Hb & Ha & ->).
    exists (JDict items :: before), stream, after.
    cbn [forallb other_stream app]. rewrite Hd, Hb. auto.
Qed.

Section ExtractFacts.

Variable T : Tools.
Variable video_path : string.

(** X11. When what ffprobe wrote is not JSON, the call raises [ValueError]
    with the message about the FFprobe output, whatever [json.loads] said;
    the streams are not looked at and ffmpeg is not run. *)
Theorem invalid_json_is_value_error (out msg : string) :
  ffprobe T video_path = inr out ->
  json_loads T out = inl (JSONDecodeError msg) ->
  extract_audio_from_video T video_path
  = inl (ValueError
           "FFprobe output is not valid JSON. Check FFmpeg installation.").
Proof.
  intros Hp Hl. unfold extract_audio_from_video, probe_video, bind.
  rewrite Hp, Hl. reflexivity.
Qed.

(** X12. Only [json.JSONDecodeError] is turned into that [ValueError]: any
    other exception of the probe, such as the one [subprocess.run] raises
    when there is no ffprobe to run, escapes as it is. *)
Theorem probe_failure_escapes (e : exception) :
  ffprobe T video_path = inl e ->
  (forall msg, e <> JSONDecodeError msg) ->
  extract_audio_from_video T video_path = inl e.
Proof.
  intros Hp He. unfold extract_audio_from_video, probe_video, bind.
  rewrite Hp. destruct e; try reflexivity. now destruct (He msg).
Qed.

(** X13. When the probe is a dict whose streams, a list of dicts, hold no
    stream with ["codec_type"] equal to ["audio"], the call raises
    [ValueError] with the message about the missing audio stream; so it
    does when the list is empty or the key ["streams"] is missing. *)
Theorem no_audio_stream_is_value_error (items : list (Py.str * json))
  (streams : list json) :
  probe_video T video_path = inr (JDict items) ->
  get_or (JDict items) (Py.of_string "streams") (JList [])
  = inr (JList streams) ->
  forallb other_stream streams = true ->
  extract_audio_from_video T video_path
  = inl (ValueError "No audio stream found in the video.").
Proof.
  intros Hp Hs Ho. unfold extract_audio_from_video, find_audio_stream.
  rewrite Hp. cbn [bind]. rewrite Hs. cbn [bind iterate].
  rewrite (next_audio_none _ Ho). reflexivity.
Qed.

(** X14. The first audio stream is the one used: when the streams are a
    list that starts with dicts that are no audio streams and goes on with
    an audio stream, the call does with that stream what lines 21-32 do,
    whatever comes after it in the list, a second audio stream or a value
    that is no dict. *)
Theorem first_audio_stream_is_used (probe : json)
  (before after : list json) (stream : list (Py.str * json)) :
  probe_video T video_path = inr probe ->
  get_or probe (Py.of_string "streams") (JList [])
  = inr (JList (before ++ JDict stream :: after)) ->
  forallb other_stream before = true ->
  audio_items stream = true ->
  extract_audio_from_video T video_path
  = read_audio T video_path (JDict stream).
Proof.
  intros Hp Hs Hb Ha. unfold extract_audio_from_video, find_audio_stream.
  rewrite Hp. cbn [bind]. rewrite Hs. cbn [bind iterate].
  rewrite (next_audio_skips _ _ _ Hb).
  destruct (next_audio_found stream after Ha) as [Hn Ht].
  rewrite Hn. cbn [bind]. rewrite Ht. reflexivity.
Qed.

(** X15. An audio stream without the key ["sample_rate"] makes the call
    raise [KeyError('sample_rate')]; ffmpeg is not run. *)
Theorem missing_sample_rate_is_key_error (probe : json)
  (before after : list json) (stream : list (Py.str * json)) :
  probe_video T video_path = inr probe ->
  get_or probe (Py.of_string "streams") (JList [])
  = inr (JList (before ++ JDict stream :: after)) ->
  forallb other_stream before = true ->
  audio_items stream = true ->
  dict_get (Py.of_string "sample_rate") stream = None ->
  extract_audio_from_video T video_path
  = inl (KeyError (Py.of_string "sample_rate")).
Proof.
  intros Hp Hs Hb Ha Hk. unfold extract_audio_from_video, find_audio_stream.
  rewrite Hp. cbn [bind]. rewrite Hs. cbn [bind iterate].
  rewrite (next_audio_skips _ _ _ Hb).
  destruct (next_audio_found stream after Ha) as [Hn Ht].
  rewrite Hn. cbn [bind]. rewrite Ht. cbn [negb bind].
  unfold read_audio. cbn [subscript]. rewrite Hk. reflexivity.
Qed.

(** X16. What the call returns: the probe is a value whose streams start
    with dicts that are no audio streams and go on with an audio stream; the
    sample rate is [int] of the ["sample_rate"] of that stream, the first
    audio stream of the probe, and is the rate ffmpeg was asked for; ffmpeg
    wrote an even number of bytes and the samples are those bytes, two by
    two. *)
Theorem extract_audio_result (audio_data : Np.int16_array)
  (sample_rate : Z) :
  extract_audio_from_video T video_path = inr (audio_data, sample_rate) ->
  exists (probe streams : json) (before : list json)
         (stream : list (Py.str * json)) (after : list json) (v : json)
         (out err : list byte),
    probe_video T video_path = inr probe
    /\ get_or probe (Py.of_string "streams") (JList []) = inr streams
    /\ iterate streams = inr (before ++ JDict stream :: after)
    /\ forallb other_stream before = true
    /\ audio_items stream = true
    /\ dict_get (Py.of_string "sample_rate") stream = Some v
    /\ int T v = inr sample_rate
    /\ ffmpeg_run T video_path sample_rate = inr (out, err)
    /\ NpBuffer.frombuffer out = inr audio_data
    /\ Np.tobytes audio_data = out
    /\ Forall NpBuffer.int16 audio_data.
Proof.
  unfold extract_audio_from_video.
  destruct (probe_video T video_path) as [e|probe]; [discriminate|].
  cbn [bind]. unfold find_audio_stream.
  destruct (get_or probe _ _) as [e|streams] eqn:Hg; [discriminate|].
  cbn [bind].
  destruct (iterate streams) as [e|l] eqn:Hl; [discriminate|]. cbn [bind].
  destruct (next_audio l) as [e|[found|]] eqn:Hn; try discriminate.
  destruct (next_audio_first l found Hn)
    as (before & stream & after & -> & Hb & Ha & ->).
  cbn [bind].
  destruct (negb (truth (JDict stream))); cbn [bind]; [discriminate|].
  unfold read_audio. cbn [subscript].
  destruct (dict_get (Py.of_string "sample_rate") stream) as [v|] eqn:Hk;
    cbn [bind]; [|discriminate].
  destruct (int T v) as [e|rate] eqn:Hi; [discriminate|]. cbn [bind].
  destruct (ffmpeg_run T video_path rate) as [e|[out err]] eqn:Hf;
    [discriminate|]. cbn [bind fst].
  destruct (NpBuffer.frombuffer out) as [e|a] eqn:Hfb; [discriminate|].
  intros H. injection H as <- <-.
  exists probe, streams, before, stream, after, v, out, err.
  pose proof (frombuffer_shape out) as Hs. rewrite Hfb in Hs.
  destruct Hs as (_ & _ & Hr & Ht). auto 12.
Qed.

(** X17. From the video to the engine: when the call returns, the chunks
    [transcribe_audio] cuts from its samples are, end to end, the bytes
    ffmpeg wrote, all of them and in order. *)
Theorem engine_gets_ffmpeg_bytes (audio_data : Np.int16_array)
  (sample_rate : Z) :
  extract_audio_from_video T video_path = inr (audio_data, sample_rate) ->
  exists out err : list byte,
    ffmpeg_run T video_path sample_rate = inr (out, err)
    /\ List.concat (chunks audio_data) = out.
Proof.
  unfold extract_audio_from_video.
  destruct (probe_video T video_path) as [e|probe]; [discriminate|].
  cbn [bind].
  destruct (find_audio_stream probe) as [e|stream]; [discriminate|].
  cbn [bind]. unfold read_audio.
  destruct (subscript stream _) as [e|v]; [discriminate|]. cbn [bind].
  destruct (int T v) as [e|rate]; [discriminate|]. cbn [bind].
  destruct (ffmpeg_run T video_path rate) as [e|[out err]] eqn:Hf;
    [discriminate|]. cbn [bind fst].
  destruct (NpBuffer.frombuffer out) as [e|a] eqn:Hb; [discriminate|].
  intros H. injection H as <- <-. exists out, err. split; [exact Hf|].
  pose proof (frombuffer_shape out) as Hs. rewrite Hb in Hs.
  destruct Hs as (_ & _ & _ & <-).
  unfold chunks, windows. rewrite tobytes_concat.
  now rewrite windows_of_concat by reflexivity.
Qed.

End ExtractFacts.

(** Witness of [invalid_json_is_value_error]. *)
Lemma invalid_json_is_value_error_witness :
  json_loads (canned (inl (JSONDecodeError "Expecting value")) (inr []))
             "{...}"
  = inl (JSONDecodeError "Expecting value")
  /\ extract_audio_from_video
       (canned (inl (JSONDecodeError "Expecting value")) (inr []))
       "video.mp4"
     = inl (ValueError
              "FFprobe output is not valid JSON. Check FFmpeg installation.").
Proof.
  split; [reflexivity|].
  apply (invalid_json_is_value_error
           (canned (inl (JSONDecodeError "Expecting value")) (inr []))
           "video.mp4" "{...}" "Expecting value");
    reflexivity.
Defined.

(** Witness of [probe_failure_escapes]: no ffprobe on the machine. *)
Lemma probe_failure_escapes_witness :
  (forall msg,
     OtherError "FileNotFoundError"
                "[Errno 2] No such file or directory: 'ffprobe'"
     <> JSONDecodeError msg)
  /\ extract_audio_from_video no_ffprobe "video.mp4"
     = inl (OtherError "FileNotFoundError"
                       "[Errno 2] No such file or directory: 'ffprobe'").
Proof.
  assert (H : forall msg,
            OtherError "FileNotFoundError"
                       "[Errno 2] No such file or directory: 'ffprobe'"
            <> JSONDecodeError msg) by (intros msg; discriminate).
  split; [exact H|].
  apply (probe_failure_escapes no_ffprobe "video.mp4" _ eq_refl H).
Defined.

(** Witness of [no_audio_stream_is_value_error]: a video stream alone. *)
Lemma no_audio_stream_is_value_error_witness :
  forallb other_stream [video_stream] = true
  /\ extract_audio_from_video
       (canned (inr (probe_of [video_stream])) (inr four_bytes)) "video.mp4"
     = inl (ValueError "No audio stream found in the video.").
Proof.
  split; [reflexivity|].
  apply (no_audio_stream_is_value_error
           (canned (inr (probe_of [video_stream])) (inr four_bytes))
           "video.mp4"
           [(Py.of_string "streams", JList [video_stream])]
           [video_stream]);
    reflexivity.
Defined.

(** Witness of [first_audio_stream_is_used]: of two audio streams the one
    at 44100 Hz comes first. *)
Lemma first_audio_stream_is_used_witness :
  forallb other_stream [video_stream] = true
  /\ audio_items audio_stream_44100 = true
  /\ extract_audio_from_video
       (canned (inr (probe_of mixed_streams)) (inr four_bytes)) "video.mp4"
     = read_audio (canned (inr (probe_of mixed_streams)) (inr four_bytes))
                  "video.mp4" (JDict audio_stream_44100)
  /\ read_audio (canned (inr (probe_of mixed_streams)) (inr four_bytes))
                "video.mp4" (JDict audio_stream_44100)
     = inr ([1; -1], 44100).
Proof.
  split; [reflexivity|]. split; [reflexivity|]. split; [|reflexivity].
  apply (first_audio_stream_is_used
           (canned (inr (probe_of mixed_streams)) (inr four_bytes))
           "video.mp4" (probe_of mixed_streams) [video_stream]
           [JDict audio_stream_8000; JNull] audio_stream_44100);
    reflexivity.
Defined.

(** Witness of [missing_sample_rate_is_key_error]. *)
Lemma missing_sample_rate_is_key_error_witness :
  dict_get (Py.of_string "sample_rate") audio_stream_bare = None
  /\ extract_audio_from_video
       (canned (inr (probe_of [video_stream; JDict audio_stream_bare]))
               (inr four_bytes))
       "video.mp4"
     = inl (KeyError (Py.of_string "sample_rate")).
Proof.
  split; [reflexivity|].
  apply (missing_sample_rate_is_key_error
           (canned (inr (probe_of [video_stream; JDict audio_stream_bare]))
                   (inr four_bytes))
           "video.mp4" (probe_of [video_stream; JDict audio_stream_bare])
           [video_stream] [] audio_stream_bare);
    reflexivity.
Defined.

(** Witness of [extract_audio_result]: four bytes, two samples, at the
    rate of the first of two audio streams. *)
Lemma extract_audio_result_witness :
  extract_audio_from_video
    (canned (inr (probe_of mixed_streams)) (inr four_bytes)) "video.mp4"
  = inr ([1; -1], 44100)
  /\ exists (probe streams : json) (before : list json)
            (stream : list (Py.str * json)) (after : list json) (v : json)
            (out err : list byte),
       probe_video (canned (inr (probe_of mixed_streams)) (inr four_bytes))
                   "video.mp4"
       = inr probe
       /\ get_or probe (Py.of_string "streams") (JList []) = inr streams
       /\ iterate streams = inr (before ++ JDict stream :: after)
       /\ forallb other_stream before = true
       /\ audio_items stream = true
       /\ dict_get (Py.of_string "sample_rate") stream = Some v
       /\ int (canned (inr (probe_of mixed_streams)) (inr four_bytes)) v
          = inr 44100
       /\ ffmpeg_run (canned (inr (probe_of mixed_streams)) (inr four_bytes))
                     "video.mp4" 44100
          = inr (out, err)
       /\ NpBuffer.frombuffer out = inr [1; -1]
       /\ Np.tobytes [1; -1] = out
       /\ Forall NpBuffer.int16 [1; -1].
Proof.
  split; [reflexivity|].
  apply (extract_audio_result
           (canned (inr (probe_of mixed_streams)) (inr four_bytes))
           "video.mp4" [1; -1] 44100).
  reflexivity.
Defined.

(** Witness of [engine_gets_ffmpeg_bytes]: four bytes in, four bytes fed. *)
Lemma engine_gets_ffmpeg_bytes_witness :
  extract_audio_from_video
    (canned (inr (probe_of mixed_streams)) (inr four_bytes)) "video.mp4"
  = inr ([1; -1], 44100)
  /\ exists out err : list byte,
       ffmpeg_run (canned (inr (probe_of mixed_streams)) (inr four_bytes))
                  "video.mp4" 44100
       = inr (out, err)
       /\ List.concat (chunks [1; -1]) = out.
Proof.
  split; [reflexivity|].
  apply (engine_gets_ffmpeg_bytes
           (canned (inr (probe_of mixed_streams)) (inr four_bytes))
           "video.mp4" [1; -1] 44100).
  reflexivity.
Defined.
